(** * Highcharts option schema: attribute setters, construction and wire
    conversion of the numeric axis, the bar and box-plot families and the
    Venn options.

    The development is a shallow embedding of
    [highcharts/axes/numeric.py], [highcharts/plot_options/bar.py],
    [highcharts/plot_options/boxplot.py] and
    [highcharts/plot_options/venn.py].  Python values are a small
    inductive type, an instance is its attribute dictionary, and a method
    is a computation in a state-and-exception monad over that
    dictionary. *)

From Stdlib Require Import ZArith PrimFloat.
From stdpp Require Import gmap strings list fin_maps.

Local Open Scope string_scope.
Local Open Scope Z_scope.

(** ** Python values *)

(** [VObj cls state] is an instance of the schema class [cls] (a
    [Gradient], a [Pattern], a [PlotBand], ...); [state] is the untrimmed
    wire mapping of its attributes. *)
#[warnings="-register-all"]
Inductive value : Type :=
| VNone
| VBool (b : bool)
| VInt (z : Z)
| VFloat (f : float)
| VStr (s : string)
| VList (items : list value)
| VDict (entries : list (string * value))
| VObj (cls : string) (state : list (string * value)).

(** A Python [dict] with string keys, in insertion order. *)
Abbreviation dict := (list (string * value)).

(** [bool(v)]: the truth value of [v]. *)
Definition truthy (v : value) : bool :=
  match v with
  | VNone => false
  | VBool b => b
  | VInt z => negb (z =? 0)
  | VFloat f => negb (PrimFloat.eqb f 0%float)
  | VStr s => negb (String.eqb s "")
  | VList items => match items with [] => false | _ => true end
  | VDict entries => match entries with [] => false | _ => true end
  | VObj _ _ => true
  end.

Definition is_None (v : value) : bool :=
  match v with VNone => true | _ => false end.

Definition is_str (v : value) : bool :=
  match v with VStr _ => true | _ => false end.

Definition is_dict (v : value) : bool :=
  match v with VDict _ => true | _ => false end.

(** [isinstance(v, cls)] for a schema class. *)
Definition isinstance_of (cls : string) (v : value) : bool :=
  match v with VObj c _ => String.eqb c cls | _ => false end.

(** *** Strings *)

Fixpoint starts_with (needle hay : string) : bool :=
  match needle, hay with
  | EmptyString, _ => true
  | String a n, String b h => Ascii.eqb a b && starts_with n h
  | String _ _, EmptyString => false
  end.

(** [needle in hay] for two strings. *)
Fixpoint str_contains (needle hay : string) : bool :=
  starts_with needle hay ||
  match hay with
  | EmptyString => false
  | String _ h => str_contains needle h
  end.

(** *** Dictionaries *)

Fixpoint dict_get (k : string) (d : dict) : option value :=
  match d with
  | [] => None
  | (k', v) :: d' => if String.eqb k' k then Some v else dict_get k d'
  end.

Definition dict_has (k : string) (d : dict) : bool :=
  match dict_get k d with Some _ => true | None => false end.

Fixpoint dict_remove (k : string) (d : dict) : dict :=
  match d with
  | [] => []
  | (k', v) :: d' =>
      if String.eqb k' k then dict_remove k d' else (k', v) :: dict_remove k d'
  end.

(** [d[k] = v]: an existing key keeps its position. *)
Fixpoint dict_set (k : string) (v : value) (d : dict) : dict :=
  match d with
  | [] => [(k, v)]
  | (k', v') :: d' =>
      if String.eqb k' k then (k, v) :: d' else (k', v') :: dict_set k v d'
  end.

(** [d.pop(k, None)]: the value and the dictionary that is left. *)
Definition dict_pop (k : string) (d : dict) : value * dict :=
  (default VNone (dict_get k d), dict_remove k d).

Definition dict_keys (d : dict) : list string := d.*1.

(** [k in v] when [v] is a [dict] or a [str], the guard of the
    structural sniffing: [isinstance(v, (dict, str)) and k in v]. *)
Definition dict_or_str_has (k : string) (v : value) : bool :=
  match v with
  | VDict entries => dict_has k entries
  | VStr s => str_contains k s
  | _ => false
  end.

(** ** Exceptions and results *)

Inductive exc : Type :=
| TypeError
| ValueError
| AttributeError
| EmptyValueError
| CannotCoerceError
| MinimumValueError
| NotAnIntegerError
| NotAnIterableError
| HighchartsValueError.

(** [isinstance(e, ValueError)]. *)
Definition is_ValueError (e : exc) : bool :=
  match e with
  | ValueError | EmptyValueError | MinimumValueError | NotAnIntegerError
  | HighchartsValueError => true
  | _ => false
  end.

(** [isinstance(e, TypeError)]. *)
Definition is_TypeError (e : exc) : bool :=
  match e with
  | TypeError | CannotCoerceError | NotAnIterableError => true
  | _ => false
  end.

Inductive result (A : Type) : Type :=
| Ok (a : A)
| Raise (e : exc).
Arguments Ok {A} a.
Arguments Raise {A} e.

Definition is_Ok {A} (r : result A) : bool :=
  match r with Ok _ => true | Raise _ => false end.

#[global] Instance result_ret : MRet result := @Ok.
#[global] Instance result_bind : MBind result := fun A B f r =>
  match r with
  | Ok a => f a
  | Raise e => Raise e
  end.

#[global] Instance result_fmap : FMap result := fun A B f r =>
  match r with
  | Ok a => Ok (f a)
  | Raise e => Raise e
  end.

(** [try: body except ValueError: handler]. *)
Definition try_except_ValueError {A} (body handler : result A) : result A :=
  match body with
  | Ok a => Ok a
  | Raise e => if is_ValueError e then handler else Raise e
  end.

(** [try: body except TypeError: handler]. *)
Definition try_except_TypeError {A} (body handler : result A) : result A :=
  match body with
  | Ok a => Ok a
  | Raise e => if is_TypeError e then handler else Raise e
  end.

(** ** Methods: state and exceptions over the instance dictionary

    A method receives the attribute dictionary of [self] and returns the
    dictionary it leaves behind with its outcome; a raised exception keeps
    whatever was assigned before it. *)
Definition M (A : Type) : Type :=
  gmap string value → gmap string value * result A.

#[global] Instance M_ret : MRet M := fun A a self => (self, Ok a).
#[global] Instance M_bind : MBind M := fun A B f m self =>
  match m self with
  | (self', Ok a) => f a self'
  | (self', Raise e) => (self', Raise e)
  end.

Definition raise {A} (e : exc) : M A := fun self => (self, Raise e).

Definition lift {A} (r : result A) : M A := fun self => (self, r).

(** [self.name = v] on a private attribute. *)
Definition setattr (name : string) (v : value) : M unit :=
  fun self => (<[name := v]> self, Ok tt).

(** [self.name]: an attribute that was never assigned raises. *)
Definition getattr (name : string) : M value := fun self =>
  match self !! name with
  | Some v => (self, Ok v)
  | None => (self, Raise AttributeError)
  end.

(** [super(self)]: Python's [super] takes a type as its first argument
    and raises [TypeError] on an instance. *)
Definition super_of_instance {A} : M A := raise TypeError.

(** Calling the class with keyword arguments: allocate an empty
    instance, run [__init__], and return the instance unless [__init__]
    raised. *)
Definition construct (init : dict → M unit) (kwargs : dict)
  : result (gmap string value) :=
  match init kwargs ∅ with
  | (self, Ok _) => Ok self
  | (_, Raise e) => Raise e
  end.

(** ** Collaborators that are not part of the four modules

    The validation primitives of [validator_collection], the [Gradient]
    and [Pattern] classes, the decorators and the parent classes are
    outside the embedded modules.  What the embedded code needs from them
    and the specification leaves open is collected here; every statement
    below holds for any choice of them. *)
Class Collaborators : Type := {
  (** [float(s)] on a string, inside [validators.numeric]. *)
  float_of_str : string → option float;
  (** The integer coercion of [validators.integer] on a number that is
      not an [int]. *)
  integer_of_number : value → result value;
  (** [Gradient.from_json(v)], [Gradient.from_dict(v)] and [Gradient]
      called with the keyword arguments [v]. *)
  Gradient_from_json : value → result value;
  Gradient_from_dict : value → result value;
  Gradient_new : value → result value;
  (** The same three entry points of [Pattern]. *)
  Pattern_from_json : value → result value;
  Pattern_from_dict : value → result value;
  Pattern_new : value → result value;
  (** [validate_types(item, types = classes)] of [highcharts.decorators]. *)
  validate_types : list string → value → result value;
  (** Construction of one node of class [cls] from a raw item. *)
  resolve_node : string → value → result value;
  (** The setter of an attribute declared by a parent class. *)
  inherited_setter : string → value → result value;
  (** [constants.SUPPORTED_DASH_STYLE_VALUES]. *)
  SUPPORTED_DASH_STYLE_VALUES : list string
}.

Section Schema.
Context `{Collaborators}.

(** *** Validation primitives *)

(** [v < 0] on a number. *)
Definition below_zero (v : value) : bool :=
  match v with
  | VInt z => z <? 0
  | VFloat f => PrimFloat.ltb f 0%float
  | _ => false
  end.

(** Modelled from the spec: [validators.numeric(value, allow_empty,
    minimum)] of the external validation library: a normalized number or
    a typed validation error, null mapped to null under [allow_empty].
    The embedded code only ever passes [minimum = 0] or no minimum;
    [minimum_0] says which. *)
Definition validators_numeric
    (v : value) (allow_empty minimum_0 : bool) : result value :=
  match v with
  | VNone => if allow_empty then Ok VNone else Raise EmptyValueError
  | _ =>
      n ← match v with
          | VStr s =>
              match float_of_str s with
              | Some f => Ok (VFloat f)
              | None => Raise CannotCoerceError
              end
          | VBool _ | VInt _ | VFloat _ => Ok v
          | _ => Raise CannotCoerceError
          end;
      if minimum_0 && below_zero n then Raise MinimumValueError else Ok n
  end.

(** Modelled from the spec: [validators.integer(value, allow_empty,
    minimum)] of the external validation library. *)
Definition validators_integer
    (v : value) (allow_empty minimum_0 : bool) : result value :=
  n ← validators_numeric v allow_empty minimum_0;
  match n with
  | VNone | VInt _ => Ok n
  | _ => integer_of_number n
  end.

(** Modelled from the spec: [validators.string(value, allow_empty)] of
    the external validation library: an empty input is null under
    [allow_empty] and an error otherwise; a string is returned as it is;
    nothing else is coerced. *)
Definition validators_string (v : value) (allow_empty : bool) : result value :=
  if negb (truthy v) then
    if allow_empty then Ok VNone else Raise EmptyValueError
  else if is_str v then Ok v
  else Raise CannotCoerceError.

(** Modelled from the spec: [validators.iterable(value)] of the external
    validation library: the value itself when it can be iterated, strings
    excluded, and a typed validation error otherwise. *)
Definition validators_iterable (v : value) : result value :=
  if negb (truthy v) then Raise EmptyValueError
  else match v with
       | VList _ | VDict _ => Ok v
       | _ => Raise NotAnIterableError
       end.

(** [for item in v]: the items a loop over [v] visits. *)
Definition py_iter (v : value) : list value :=
  match v with
  | VList items => items
  | VDict entries => VStr <$> dict_keys entries
  | VStr s =>
      (λ a, VStr (String a EmptyString)) <$> String.list_ascii_of_string s
  | _ => []
  end.

(** Modelled from the spec: [class_sensitive(cls, force_iterable)] of
    [highcharts.decorators] is outside the embedded modules.  An empty
    input becomes null; otherwise the value is resolved through the
    construction of the referenced node, item by item when
    [force_iterable] is set, a single bare item being wrapped as a
    one-element sequence. *)
Definition class_sensitive
    (cls : string) (force_iterable : bool) (v : value) : result value :=
  if negb (truthy v) then Ok VNone
  else if force_iterable then
    VList <$> mapM (resolve_node cls)
                   (match v with VList items => items | _ => [v] end)
  else resolve_node cls v.

Definition has_gradient_marker (v : value) : bool :=
  dict_or_str_has "linearGradient" v || dict_or_str_has "linear_gradient" v
  || dict_or_str_has "radialGradient" v.

Definition has_pattern_marker (v : value) : bool :=
  dict_or_str_has "patternOptions" v || dict_or_str_has "pattern_options" v.

(** Modelled from the spec: [utility_functions.validate_color] is outside
    the embedded modules. The six steps of the polymorphic color-like
    setter: a falsy value is null; a [Gradient] or [Pattern] is kept; a
    mapping or string with a gradient marker is parsed as a [Gradient], a
    string that fails to parse being kept as a plain string; the same for
    a pattern marker; any other string is validated as a plain string;
    anything else is an error. *)
Definition validate_color (v : value) : result value :=
  if negb (truthy v) then Ok VNone
  else if isinstance_of "Gradient" v || isinstance_of "Pattern" v then Ok v
  else if has_gradient_marker v then
    match (if is_dict v then Gradient_from_dict v
           else Gradient_from_json v) with
    | Ok g => Ok g
    | Raise e => if is_str v then validators_string v false else Raise e
    end
  else if has_pattern_marker v then
    match (if is_dict v then Pattern_from_dict v else Pattern_from_json v) with
    | Ok p => Ok p
    | Raise e => if is_str v then validators_string v false else Raise e
    end
  else if is_str v then validators_string v false
  else Raise HighchartsValueError.

(** *** Setter shapes shared by many attributes

    Each attribute of the source has its own property; the bodies below
    are the ones that recur, with the private attribute as a parameter. *)

(** [if value is None: self._x = None else: self._x = bool(value)]. *)
Definition bool_setter (private : string) (v : value) : M unit :=
  if is_None v then setattr private VNone
  else setattr private (VBool (truthy v)).

(** [self._x = validators.numeric(value, allow_empty = True, ...)]. *)
Definition numeric_setter (private : string) (minimum_0 : bool) (v : value)
  : M unit :=
  n ← lift (validators_numeric v true minimum_0); setattr private n.

(** [self._x = validators.integer(value, allow_empty = True, minimum = 0)]. *)
Definition integer_setter (private : string) (v : value) : M unit :=
  n ← lift (validators_integer v true true); setattr private n.

(** [self._x = validators.string(value, allow_empty = True)]. *)
Definition string_setter (private : string) (v : value) : M unit :=
  s ← lift (validators_string v true); setattr private s.

(** [self._x = utility_functions.validate_color(value)]. *)
Definition color_setter (private : string) (v : value) : M unit :=
  c ← lift (validate_color v); setattr private c.

(** A setter under [@class_sensitive(cls, force_iterable)]. *)
Definition node_setter (private cls : string) (force_iterable : bool)
    (v : value) : M unit :=
  n ← lift (class_sensitive cls force_iterable v); setattr private n.

(** *** Construction from keyword arguments *)

(** The opening assignments [self._x = None] of an [__init__]. *)
Fixpoint init_private (names : list string) : M unit :=
  match names with
  | [] => mret tt
  | name :: rest => setattr name VNone ≫= λ _, init_private rest
  end.

(** The assignments [self.x = kwargs.pop('x', None)] of an [__init__], in
    order; the result is what is left of [kwargs]. *)
Fixpoint assign_from_kwargs
    (setters : list (string * (value → M unit))) (kwargs : dict) : M dict :=
  match setters with
  | [] => mret kwargs
  | (name, setter) :: rest =>
      setter (dict_pop name kwargs).1 ≫= λ _,
      assign_from_kwargs rest (dict_pop name kwargs).2
  end.

(** [self.attr] through the property: every getter of the source returns
    the private attribute [self._attr]. *)
Definition property_get (attr : string) : M value := getattr ("_" +:+ attr).

(** The dictionary literal [{key: self.attr, ...}] of a serializer, its
    entries evaluated and inserted in order after those of [acc]. *)
Fixpoint read_attributes_into (table : list (string * string)) (acc : dict)
  : M dict :=
  match table with
  | [] => mret acc
  | (key, attr) :: rest =>
      v ← property_get attr;
      read_attributes_into rest (dict_set key v acc)
  end.

Definition read_attributes (table : list (string * string)) : M dict :=
  read_attributes_into table [].

(** The dictionary literal [{attr: as_dict.pop(key, None), ...}] of a
    keyword extractor, filled in order after the entries of [kwargs]; the
    second component is what is left of [as_dict]. *)
Fixpoint pop_recognized_into
    (table : list (string * string)) (as_dict kwargs : dict) : dict * dict :=
  match table with
  | [] => (kwargs, as_dict)
  | (attr, key) :: rest =>
      pop_recognized_into rest (dict_pop key as_dict).2
                          (dict_set attr (dict_pop key as_dict).1 kwargs)
  end.

Definition pop_recognized (table : list (string * string)) (as_dict : dict)
  : dict * dict :=
  pop_recognized_into table as_dict [].

(** [for key in parent_as_dict: untrimmed[key] = parent_as_dict[key]]. *)
Definition merge_parent (untrimmed parent_as_dict : dict) : dict :=
  foldl (λ acc kv, dict_set kv.1 kv.2 acc) untrimmed parent_as_dict.

(** *** Wire conversion of the base class *)

(** Modelled from the spec: [HighchartsMeta.trim_dict] is outside the
    embedded modules. A value that is null, an empty string, an empty
    collection, or a nested node or sequence that itself trims to empty,
    is removed; trimming is deep, children first. [None] stands for
    removed. *)
Fixpoint trim (v : value) : option value :=
  let trim_entries := fix go (entries : dict) : dict :=
    match entries with
    | [] => []
    | (k, x) :: rest =>
        match trim x with
        | Some x' => (k, x') :: go rest
        | None => go rest
        end
    end in
  match v with
  | VNone => None
  | VStr s => if String.eqb s "" then None else Some v
  | VList items =>
      match omap trim items with [] => None | kept => Some (VList kept) end
  | VDict entries =>
      match trim_entries entries with [] => None | kept => Some (VDict kept) end
  | VObj _ state =>
      match trim_entries state with [] => None | kept => Some (VDict kept) end
  | VBool _ | VInt _ | VFloat _ => Some v
  end.

Fixpoint trim_dict (untrimmed : dict) : dict :=
  match untrimmed with
  | [] => []
  | (k, x) :: rest =>
      match trim x with
      | Some x' => (k, x') :: trim_dict rest
      | None => trim_dict rest
      end
  end.

(** Modelled from the spec: [HighchartsMeta.to_dict] is outside the
    embedded modules: the untrimmed mapping of the class, trimmed. *)
Definition to_dict (to_untrimmed_dict : M dict) (self : gmap string value)
  : result dict :=
  trim_dict <$> (to_untrimmed_dict self).2.

(** Modelled from the spec: [HighchartsMeta.from_dict] is outside the
    embedded modules: the class-specific key extraction, then the ordinary
    constructor. *)
Definition from_dict (get_kwargs_from_dict : dict → dict)
    (init : dict → M unit) (as_dict : dict) : result (gmap string value) :=
  construct init (get_kwargs_from_dict as_dict).

(** Modelled from the spec: the parent classes ([GenericAxis],
    [GenericTypeOptions]) are outside the embedded modules. A parent
    declares the attributes of its child's flattened key table that the
    child does not declare itself; its constructor reads each of them from
    the initializers, null when absent, and runs it through the
    attribute's setter, a null input staying null; its serializer emits
    each under its wire key. *)
Definition inherited (table : list (string * string)) (own : list string)
  : list (string * string) :=
  filter (λ entry, entry.1 ∉ own) table.

Definition inherited_set (attr : string) (v : value) : M unit :=
  if is_None v then setattr ("_" +:+ attr) VNone
  else v' ← lift (inherited_setter attr v); setattr ("_" +:+ attr) v'.

Definition parent_init (entries : list (string * string)) (kwargs : dict)
  : M unit :=
  assign_from_kwargs ((λ entry, (entry.1, inherited_set entry.1)) <$> entries)
                     kwargs ≫= λ _, mret tt.

Definition parent_to_untrimmed_dict (entries : list (string * string))
  : M dict :=
  read_attributes ((λ entry, (entry.2, entry.1)) <$> entries).

End Schema.

(** A choice of collaborators for running the model on concrete inputs:
    no string parses as a number, every construction of a nested node is
    rejected, and the dash styles are the eleven values the docstrings of
    the box-plot options list. *)
Definition strict : Collaborators := {|
  float_of_str := λ _, None;
  integer_of_number := λ _, Raise NotAnIntegerError;
  Gradient_from_json := λ _, Raise ValueError;
  Gradient_from_dict := λ _, Raise HighchartsValueError;
  Gradient_new := λ _, Raise HighchartsValueError;
  Pattern_from_json := λ _, Raise ValueError;
  Pattern_from_dict := λ _, Raise HighchartsValueError;
  Pattern_new := λ _, Raise HighchartsValueError;
  validate_types := λ _ _, Raise HighchartsValueError;
  resolve_node := λ _ _, Raise HighchartsValueError;
  inherited_setter := λ _ _, Raise HighchartsValueError;
  SUPPORTED_DASH_STYLE_VALUES :=
    ["Dash"; "DashDot"; "Dot"; "LongDash"; "LongDashDot"; "LongDashDotDot";
     "ShortDash"; "ShortDashDot"; "ShortDashDotDot"; "ShortDot"; "Solid"]
|}.

(** ** [highcharts/axes/numeric.py] *)
Module Numeric.

(** The keyword dictionary of [NumericAxis.from_dict]: attribute and the
    wire key popped for it. *)
Definition NumericAxis_from_dict_table : list (string * string) :=
  [("accessibility", "accessibility"); ("align_ticks", "alignTicks");
   ("allow_decimals", "allowDecimals");
   ("alternate_grid_color", "alternateGridColor"); ("angle", "angle");
   ("breaks", "breaks"); ("categories", "categories");
   ("ceiling", "ceiling"); ("class_name", "className");
   ("date_time_label_formats", "dateTimeLabelFormats");
   ("end_on_tick", "endOnTick"); ("events", "events"); ("floor", "floor");
   ("grid_line_color", "gridLineColor");
   ("grid_line_dash_style", "gridLineDashStyle");
   ("grid_line_interpolation", "gridLineInterpolation");
   ("grid_line_width", "gridLineWidth"); ("grid_z_index", "gridZIndex");
   ("id", "id"); ("labels", "labels"); ("linked_to", "linkedTo");
   ("margin", "margin"); ("max", "max"); ("max_padding", "maxPadding");
   ("min", "min"); ("minor_grid_line_color", "minorGridLineColor");
   ("minor_grid_line_dash_style", "minorGridLineDashStyle");
   ("minor_grid_line_width", "minorGridLineWidth");
   ("minor_tick_color", "minorTickColor");
   ("minor_tick_interval", "minorTickInterval");
   ("minor_tick_length", "minorTickLength");
   ("minor_tick_position", "minorTickPosition");
   ("minor_ticks", "minorTicks"); ("minor_tick_width", "minorTickWidth");
   ("min_padding", "minPadding"); ("min_range", "minRange");
   ("min_tick_interval", "minTickInterval"); ("offset", "offset");
   ("opposite", "opposite"); ("pane", "pane");
   ("panning_enabled", "panningEnabled"); ("plot_bands", "plotBands");
   ("plot_lines", "plotLines"); ("reversed", "reversed");
   ("reversed_stacks", "reversedStacks");
   ("show_first_label", "showFirstLabel");
   ("show_last_label", "showLastLabel"); ("soft_max", "softMax");
   ("soft_min", "softMin"); ("start_of_week", "startOfWeek");
   ("start_on_tick", "startOnTick"); ("tick_amount", "tickAmount");
   ("tick_color", "tickColor"); ("tick_interval", "tickInterval");
   ("tick_length", "tickLength");
   ("tickmark_placement", "tickmarkPlacement");
   ("tick_pixel_interval", "tickPixelInterval");
   ("tick_position", "tickPosition"); ("tick_positioner", "tickPositioner");
   ("tick_positions", "tickPositions"); ("tick_width", "tickWidth");
   ("title", "title"); ("type", "type"); ("unique_names", "uniqueNames");
   ("units", "units"); ("visible", "visible"); ("z_index", "zIndex");
   ("zoom_enabled", "zoomEnabled")].

(** The dictionary literal of [NumericAxis.to_dict]: emitted key and the
    attribute read for it. *)
Definition NumericAxis_to_dict_table : list (string * string) :=
  [("accessibility", "accessibility"); ("alignTicks", "align_ticks");
   ("allowDecimals", "allow_decimals");
   ("alternateGridColor", "alternate_grid_color"); ("angle", "angle");
   ("breaks", "breaks"); ("categories", "categories");
   ("ceiling", "ceiling"); ("class_name", "class_name");
   ("dateTimeLabelFormats", "date_time_label_formats");
   ("endOnTick", "end_on_tick"); ("events", "events"); ("floor", "floor");
   ("gridLineColor", "grid_line_color");
   ("gridLineDashStyle", "grid_line_dash_style");
   ("gridLineInterpolation", "grid_line_interpolation");
   ("gridLineWidth", "grid_line_width"); ("gridZIndex", "grid_z_index");
   ("id", "id"); ("labels", "labels"); ("linkedTo", "linked_to");
   ("margin", "margin"); ("max", "max"); ("maxPadding", "max_padding");
   ("min", "min"); ("minorGridLineColor", "minor_grid_line_color");
   ("minorGridLineDashStyle", "minor_grid_line_dash_style");
   ("minorGridLineWidth", "minor_grid_line_width");
   ("minorTickColor", "minor_tick_color");
   ("minorTickInterval", "minor_tick_interval");
   ("minorTickLength", "minor_tick_length");
   ("minorTickPosition", "minor_tick_position");
   ("minorTicks", "minor_ticks"); ("minorTickWidth", "minor_tick_width");
   ("minPadding", "min_padding"); ("minRange", "min_range");
   ("minTickInterval", "min_tick_interval"); ("offset", "offset");
   ("opposite", "opposite"); ("pane", "pane");
   ("panningEnabled", "panning_enabled"); ("plotPands", "plot_bands");
   ("plotLines", "plot_lines"); ("reversed", "reversed");
   ("reversedStacks", "reversed_stacks");
   ("showFirstLabel", "show_first_label");
   ("showLastLabel", "show_last_label"); ("softMax", "soft_max");
   ("softMin", "soft_min"); ("startOfWeek", "start_of_week");
   ("startOnTick", "start_on_tick"); ("tickAmount", "tick_amount");
   ("tickColor", "tick_color"); ("tickInterval", "tick_interval");
   ("tickLength", "tick_length");
   ("tickmarkPlacement", "tickmark_placement");
   ("tickPixelInterval", "tick_pixel_interval");
   ("tickPosition", "tick_position"); ("tickPositioner", "tick_positioner");
   ("tickPositions", "tick_positions"); ("tickWidth", "tick_width");
   ("title", "title"); ("type", "type"); ("uniqueNames", "unique_names");
   ("units", "units"); ("visible", "visible"); ("zIndex", "z_index");
   ("zoomEnabled", "zoom_enabled")].

(** The attributes [NumericAxis] declares itself, in the order of its
    [__init__]. *)
Definition NumericAxis_own : list string :=
  ["align_ticks"; "allow_decimals"; "alternate_grid_color"; "breaks";
   "categories"; "date_time_label_formats"; "linked_to"; "min_range";
   "min_tick_interval"; "offset"; "opposite"; "pane"; "plot_bands";
   "plot_lines"; "reversed_stacks"; "title"; "zoom_enabled"].

Section WithCollaborators.
Context `{Collaborators}.

Definition align_ticks_set : value → M unit := bool_setter "_align_ticks".

Definition allow_decimals_set : value → M unit :=
  bool_setter "_allow_decimals".

(** [NumericAxis.alternate_grid_color], the setter. *)
Definition alternate_grid_color_set (v : value) : M unit :=
  if negb (truthy v) then
    setattr "_alternate_grid_color" VNone
  else if isinstance_of "Gradient" v || isinstance_of "Pattern" v then
    setattr "_alternate_grid_color" v
  else if dict_or_str_has "linearGradient" v then
    c ← lift (try_except_ValueError
                (Gradient_from_json v)
                (if is_dict v then Gradient_from_dict v
                 else validators_string v false));
    setattr "_alternate_grid_color" c
  else if is_dict v && dict_or_str_has "linear_gradient" v then
    c ← lift (Gradient_new v);
    setattr "_alternate_grid_color" c
  else if dict_or_str_has "patternOptions" v then
    c ← lift (try_except_ValueError
                (Pattern_from_json v)
                (if is_dict v then Pattern_from_dict v
                 else validators_string v false));
    setattr "_alternate_grid_color" c
  else if is_dict v && dict_or_str_has "pattern_options" v then
    c ← lift (Pattern_new v);
    setattr "_alternate_grid_color" c
  else
    raise HighchartsValueError.

Definition breaks_set : value → M unit :=
  node_setter "_breaks" "AxisBreak" true.

(** [NumericAxis.categories], the setter. *)
Definition categories_set (v : value) : M unit :=
  if negb (truthy v) then setattr "_categories" VNone
  else
    it ← lift (validators_iterable v);
    xs ← lift (mapM (λ x, validators_string x false) (py_iter it));
    setattr "_categories" (VList xs).

Definition date_time_label_formats_set : value → M unit :=
  node_setter "_date_time_label_formats" "DateTimeLabelFormats" false.

Definition linked_to_set : value → M unit := integer_setter "_linked_to".

Definition min_range_set : value → M unit :=
  numeric_setter "_min_range" false.

Definition min_tick_interval_set : value → M unit :=
  numeric_setter "_min_tick_interval" false.

Definition offset_set : value → M unit := numeric_setter "_offset" false.

Definition opposite_set : value → M unit := bool_setter "_opposite".

Definition pane_set : value → M unit := integer_setter "_pane".

Definition plot_bands_set : value → M unit :=
  node_setter "_plot_bands" "PlotBand" true.

Definition plot_lines_set : value → M unit :=
  node_setter "_plot_lines" "PlotLine" true.

Definition reversed_stacks_set : value → M unit :=
  bool_setter "_reversed_stacks".

Definition title_set : value → M unit :=
  node_setter "_title" "AxisTitle" false.

Definition zoom_enabled_set : value → M unit := bool_setter "_zoom_enabled".

Definition NumericAxis_setters : list (string * (value → M unit)) :=
  [("align_ticks", align_ticks_set); ("allow_decimals", allow_decimals_set);
   ("alternate_grid_color", alternate_grid_color_set);
   ("breaks", breaks_set); ("categories", categories_set);
   ("date_time_label_formats", date_time_label_formats_set);
   ("linked_to", linked_to_set); ("min_range", min_range_set);
   ("min_tick_interval", min_tick_interval_set); ("offset", offset_set);
   ("opposite", opposite_set); ("pane", pane_set);
   ("plot_bands", plot_bands_set); ("plot_lines", plot_lines_set);
   ("reversed_stacks", reversed_stacks_set); ("title", title_set);
   ("zoom_enabled", zoom_enabled_set)].

(** [GenericAxis.__init__], reached through [super().__init__]. *)
Definition GenericAxis_init : dict → M unit :=
  parent_init (inherited NumericAxis_from_dict_table NumericAxis_own).

(** [NumericAxis.__init__]. *)
Definition NumericAxis_init (kwargs : dict) : M unit :=
  init_private (String.app "_" <$> NumericAxis_own) ≫= λ _,
  rest ← assign_from_kwargs NumericAxis_setters kwargs;
  GenericAxis_init rest.

(** [NumericAxis.from_dict]. *)
Definition NumericAxis_from_dict (as_dict : dict)
  : result (gmap string value) :=
  construct NumericAxis_init (pop_recognized NumericAxis_from_dict_table as_dict).1.

(** The mapping [NumericAxis.to_dict] builds before trimming. *)
Definition NumericAxis_untrimmed : M dict :=
  read_attributes NumericAxis_to_dict_table.

(** [NumericAxis.to_dict]. *)
Definition NumericAxis_to_dict (self : gmap string value) : result dict :=
  trim_dict <$> (NumericAxis_untrimmed self).2.

End WithCollaborators.
End Numeric.

(** ** [highcharts/plot_options/bar.py] *)
Module Bar.

(** The keyword dictionary of [BaseBarOptions._get_kwargs_from_dict]. *)
Definition BaseBarOptions_kwargs_table : list (string * string) :=
  [("accessibility", "accessibility");
   ("allow_point_select", "allowPointSelect"); ("animation", "animation");
   ("class_name", "className"); ("clip", "clip"); ("color", "color");
   ("cursor", "cursor"); ("custom", "custom"); ("dash_style", "dashStyle");
   ("data_labels", "dataLabels"); ("description", "description");
   ("enable_mouse_tracking", "enableMouseTracking"); ("events", "events");
   ("include_in_data_export", "includeInDataExport"); ("keys", "keys");
   ("label", "label"); ("linked_to", "linkedTo"); ("marker", "marker");
   ("on_point", "onPoint"); ("opacity", "opacity"); ("point", "point");
   ("point_description_formatter", "pointDescriptionFormatter");
   ("selected", "selected"); ("show_checkbox", "showCheckbox");
   ("show_in_legend", "showInLegend");
   ("skip_keyboard_navigation", "skipKeyboardNavigation");
   ("states", "states"); ("threshold", "threshold"); ("tooltip", "tooltip");
   ("turbo_threshold", "turboThreshold"); ("visible", "visible");
   ("animation_limit", "animationLimit");
   ("boost_blending", "boostBlending");
   ("boost_threshold", "boostThreshold"); ("color_axis", "colorAxis");
   ("color_index", "colorIndex"); ("color_key", "colorKey");
   ("connect_ends", "connectEnds"); ("connect_nulls", "connectNulls");
   ("crisp", "crisp"); ("crop_threshold", "cropThreshold");
   ("data_sorting", "dataSorting"); ("drag_drop", "dragDrop");
   ("find_nearest_point_by", "findNearestPointBy");
   ("get_extremes_for_all", "getExtremesForAll"); ("linecap", "linecap");
   ("line_width", "lineWidth"); ("negative_color", "negativeColor");
   ("point_interval", "pointInterval");
   ("point_interval_unit", "pointIntervalUnit");
   ("point_placement", "pointPlacement"); ("point_start", "pointStart");
   ("relative_x_value", "relativeXValue"); ("shadow", "shadow");
   ("soft_threshold", "softThreshold"); ("stacking", "stacking");
   ("step", "step"); ("zone_axis", "zoneAxis"); ("zones", "zones");
   ("border_color", "borderColor"); ("border_radius", "borderRadius");
   ("border_width", "borderWidth");
   ("center_in_category", "centerInCategory");
   ("color_by_point", "colorByPoint"); ("colors", "colors");
   ("grouping", "grouping"); ("group_padding", "groupPadding");
   ("max_point_width", "maxPointWidth");
   ("min_point_length", "minPointLength"); ("point_padding", "pointPadding");
   ("point_range", "pointRange"); ("point_width", "pointWidth")].

(** The dictionary literal of [BaseBarOptions._to_untrimmed_dict]. *)
Definition BaseBarOptions_untrimmed_table : list (string * string) :=
  [("borderColor", "border_color"); ("borderRadius", "border_radius");
   ("borderWidth", "border_width");
   ("centerInCategory", "center_in_category");
   ("colorByPoint", "color_by_point"); ("colors", "colors");
   ("grouping", "grouping"); ("groupPadding", "group_padding");
   ("maxPointWidth", "max_point_width");
   ("minPointLength", "min_point_length"); ("pointPadding", "point_padding");
   ("pointRange", "point_range"); ("pointWidth", "point_width")].

(** The keyword dictionary of [BarOptions._get_kwargs_from_dict]. *)
Definition BarOptions_kwargs_table : list (string * string) :=
  [("accessibility", "accessibility");
   ("allow_point_select", "allowPointSelect"); ("animation", "animation");
   ("class_name", "className"); ("clip", "clip"); ("color", "color");
   ("cursor", "cursor"); ("custom", "custom"); ("dash_style", "dashStyle");
   ("data_labels", "dataLabels"); ("description", "description");
   ("enable_mouse_tracking", "enableMouseTracking"); ("events", "events");
   ("include_in_data_export", "includeInDataExport"); ("keys", "keys");
   ("label", "label"); ("linked_to", "linkedTo"); ("marker", "marker");
   ("on_point", "onPoint"); ("opacity", "opacity"); ("point", "point");
   ("point_description_formatter", "pointDescriptionFormatter");
   ("selected", "selected"); ("show_checkbox", "showCheckbox");
   ("show_in_legend", "showInLegend");
   ("skip_keyboard_navigation", "skipKeyboardNavigation");
   ("states", "states"); ("threshold", "threshold"); ("tooltip", "tooltip");
   ("turbo_threshold", "turboThreshold"); ("visible", "visible");
   ("animation_limit", "animationLimit");
   ("boost_blending", "boostBlending");
   ("boost_threshold", "boostThreshold"); ("color_axis", "colorAxis");
   ("color_index", "colorIndex"); ("color_key", "colorKey");
   ("connect_ends", "connectEnds"); ("connect_nulls", "connectNulls");
   ("crisp", "crisp"); ("crop_threshold", "cropThreshold");
   ("data_sorting", "dataSorting"); ("drag_drop", "dragDrop");
   ("find_nearest_point_by", "findNearestPointBy");
   ("get_extremes_for_all", "getExtremesForAll"); ("linecap", "linecap");
   ("line_width", "lineWidth"); ("negative_color", "negativeColor");
   ("point_interval", "pointInterval");
   ("point_interval_unit", "pointIntervalUnit");
   ("point_placement", "pointPlacement"); ("point_start", "pointStart");
   ("relative_x_value", "relativeXValue"); ("shadow", "shadow");
   ("soft_threshold", "softThreshold"); ("stacking", "stacking");
   ("step", "step"); ("zone_axis", "zoneAxis"); ("zones", "zones");
   ("border_color", "borderColor"); ("border_radius", "borderRadius");
   ("border_width", "borderWidth");
   ("center_in_category", "centerInCategory");
   ("color_by_point", "colorByPoint"); ("colors", "colors");
   ("grouping", "grouping"); ("group_padding", "groupPadding");
   ("max_point_width", "maxPointWidth");
   ("min_point_length", "minPointLength"); ("point_padding", "pointPadding");
   ("point_range", "pointRange"); ("point_width", "pointWidth");
   ("depth", "depth"); ("edge_color", "edgeColor");
   ("edge_width", "edgeWidth"); ("group_z_padding", "groupZPadding")].

(** The dictionary literal of [BarOptions._to_untrimmed_dict]. *)
Definition BarOptions_untrimmed_table : list (string * string) :=
  [("depth", "depth"); ("edgeColor", "edge_color");
   ("edgeWidth", "edge_width"); ("groupZPadding", "group_z_padding")].

(** The dictionary literal of [WaterfallOptions._to_untrimmed_dict]. *)
Definition WaterfallOptions_untrimmed_table : list (string * string) :=
  [("lineColor", "line_color"); ("upColor", "up_color")].

(** The dictionary literal of [WindBarbOptions._to_untrimmed_dict]. *)
Definition WindBarbOptions_untrimmed_table : list (string * string) :=
  [("dataGrouping", "data_grouping"); ("onSeries", "on_series");
   ("vectorLength", "vector_length"); ("xOffset", "x_offset");
   ("yOffset", "y_offset")].

(** The dictionary literal of [XRangeOptions._to_untrimmed_dict]. *)
Definition XRangeOptions_untrimmed_table : list (string * string) :=
  [("groupZPadding", "group_z_padding"); ("partialFill", "partial_fill")].

(** The attributes each class declares itself, in the order of its
    [__init__]. *)
Definition BaseBarOptions_own : list string :=
  ["border_color"; "border_radius"; "border_width"; "center_in_category";
   "color_by_point"; "colors"; "grouping"; "group_padding";
   "max_point_width"; "min_point_length"; "point_padding"; "point_range";
   "point_width"].

Definition BarOptions_own : list string :=
  ["depth"; "edge_color"; "edge_width"; "group_z_padding"].

Definition WaterfallOptions_own : list string := ["line_color"; "up_color"].

Definition WindBarbOptions_own : list string :=
  ["data_grouping"; "on_series"; "vector_length"; "x_offset"; "y_offset"].

Definition XRangeOptions_own : list string :=
  ["group_z_padding"; "partial_fill"].

(** [constants.EnforcedNull], the instance of [EnforcedNullType]. *)
Definition EnforcedNull : value := VObj "EnforcedNullType" [].

Section WithCollaborators.
Context `{Collaborators}.

(** *** [BaseBarOptions] *)

Definition border_color_set : value → M unit := color_setter "_border_color".

Definition border_radius_set : value → M unit :=
  numeric_setter "_border_radius" true.

Definition border_width_set : value → M unit :=
  numeric_setter "_border_width" true.

Definition center_in_category_set : value → M unit :=
  bool_setter "_center_in_category".

Definition color_by_point_set : value → M unit :=
  bool_setter "_color_by_point".

(** The body of the loop of [BaseBarOptions.colors]: [whole] is the
    validated input the loop runs over, [item] the current element; the
    source tests [isinstance(value, str)] on the former. *)
Definition colors_check_item (whole item : value) : result value :=
  if is_str whole then Ok item
  else validate_types ["Gradient"; "Pattern"] item.

(** [BaseBarOptions.colors], the setter. *)
Definition colors_set (v : value) : M unit :=
  if negb (truthy v) then setattr "_colors" VNone
  else
    whole ← lift (validators_iterable v);
    checked_values ← lift (mapM (colors_check_item whole) (py_iter whole));
    setattr "_colors" (VList checked_values).

Definition grouping_set : value → M unit := bool_setter "_grouping".

Definition group_padding_set : value → M unit :=
  numeric_setter "_group_padding" true.

Definition max_point_width_set : value → M unit :=
  numeric_setter "_max_point_width" true.

Definition min_point_length_set : value → M unit :=
  numeric_setter "_min_point_length" true.

Definition point_padding_set : value → M unit :=
  numeric_setter "_point_padding" true.

(** [BaseBarOptions.point_range], the setter. *)
Definition point_range_set (v : value) : M unit :=
  if isinstance_of "EnforcedNullType" v then setattr "_point_range" EnforcedNull
  else numeric_setter "_point_range" false v.

Definition point_width_set : value → M unit :=
  numeric_setter "_point_width" true.

Definition BaseBarOptions_setters : list (string * (value → M unit)) :=
  [("border_color", border_color_set); ("border_radius", border_radius_set);
   ("border_width", border_width_set);
   ("center_in_category", center_in_category_set);
   ("color_by_point", color_by_point_set); ("colors", colors_set);
   ("grouping", grouping_set); ("group_padding", group_padding_set);
   ("max_point_width", max_point_width_set);
   ("min_point_length", min_point_length_set);
   ("point_padding", point_padding_set); ("point_range", point_range_set);
   ("point_width", point_width_set)].

(** The statements of [BaseBarOptions.__init__] before the call to the
    parent: the private attributes, then every own attribute from
    [kwargs]. *)
Definition BaseBarOptions_assign (kwargs : dict) : M dict :=
  init_private (String.app "_" <$> BaseBarOptions_own) ≫= λ _,
  assign_from_kwargs BaseBarOptions_setters kwargs.

(** [BaseBarOptions.__init__]; its last statement is
    [super(self).__init__] on the keyword arguments that are left. *)
Definition BaseBarOptions_init (kwargs : dict) : M unit :=
  BaseBarOptions_assign kwargs ≫= λ _, super_of_instance.

(** [BaseBarOptions._get_kwargs_from_dict]. *)
Definition BaseBarOptions_get_kwargs_from_dict (as_dict : dict) : dict :=
  (pop_recognized BaseBarOptions_kwargs_table as_dict).1.

(** [BaseBarOptions._to_untrimmed_dict]; the parent mapping is asked of
    [super(self)]. *)
Definition BaseBarOptions_to_untrimmed_dict : M dict :=
  untrimmed ← read_attributes BaseBarOptions_untrimmed_table;
  parent_as_dict ← super_of_instance;
  mret (merge_parent untrimmed parent_as_dict).

(** *** [BarOptions] *)

Definition depth_set : value → M unit := numeric_setter "_depth" true.

Definition edge_color_set : value → M unit := string_setter "_edge_color".

Definition edge_width_set : value → M unit := numeric_setter "_edge_width" true.

Definition group_z_padding_set : value → M unit :=
  numeric_setter "_group_z_padding" true.

Definition BarOptions_setters : list (string * (value → M unit)) :=
  [("depth", depth_set); ("edge_color", edge_color_set);
   ("edge_width", edge_width_set); ("group_z_padding", group_z_padding_set)].

Definition BarOptions_assign (kwargs : dict) : M dict :=
  init_private (String.app "_" <$> BarOptions_own) ≫= λ _,
  assign_from_kwargs BarOptions_setters kwargs.

(** [BarOptions.__init__], ending in [super(self).__init__]. *)
Definition BarOptions_init (kwargs : dict) : M unit :=
  BarOptions_assign kwargs ≫= λ _, super_of_instance.

(** [BarOptions._get_kwargs_from_dict]. *)
Definition BarOptions_get_kwargs_from_dict (as_dict : dict) : dict :=
  (pop_recognized BarOptions_kwargs_table as_dict).1.

(** [BarOptions._to_untrimmed_dict]. *)
Definition BarOptions_to_untrimmed_dict : M dict :=
  untrimmed ← read_attributes BarOptions_untrimmed_table;
  parent_as_dict ← super_of_instance;
  mret (merge_parent untrimmed parent_as_dict).

(** *** [WaterfallOptions], a [ColumnOptions], which is a [BarOptions] *)

Definition line_color_set : value → M unit := color_setter "_line_color".

Definition up_color_set : value → M unit := color_setter "_up_color".

(** [WaterfallOptions.__init__], ending in [super().__init__], which is
    [BarOptions.__init__]. *)
Definition WaterfallOptions_init (kwargs : dict) : M unit :=
  init_private (String.app "_" <$> WaterfallOptions_own) ≫= λ _,
  rest ← assign_from_kwargs
           [("line_color", line_color_set); ("up_color", up_color_set)] kwargs;
  BarOptions_init rest.

(** [WaterfallOptions._to_untrimmed_dict]. *)
Definition WaterfallOptions_to_untrimmed_dict : M dict :=
  untrimmed ← read_attributes WaterfallOptions_untrimmed_table;
  parent_as_dict ← super_of_instance;
  mret (merge_parent untrimmed parent_as_dict).

(** *** [WindBarbOptions], a [BarOptions] *)

Definition data_grouping_set : value → M unit :=
  node_setter "_data_grouping" "DataGroupingOptions" false.

Definition on_series_set : value → M unit := string_setter "_on_series".

Definition vector_length_set : value → M unit :=
  numeric_setter "_vector_length" true.

Definition x_offset_set : value → M unit := numeric_setter "_x_offset" false.

Definition y_offset_set : value → M unit := numeric_setter "_y_offset" false.

(** [WindBarbOptions.__init__], ending in [super().__init__], which is
    [BarOptions.__init__]. *)
Definition WindBarbOptions_init (kwargs : dict) : M unit :=
  init_private (String.app "_" <$> WindBarbOptions_own) ≫= λ _,
  rest ← assign_from_kwargs
           [("data_grouping", data_grouping_set); ("on_series", on_series_set);
            ("vector_length", vector_length_set); ("x_offset", x_offset_set);
            ("y_offset", y_offset_set)] kwargs;
  BarOptions_init rest.

(** [WindBarbOptions._to_untrimmed_dict]. *)
Definition WindBarbOptions_to_untrimmed_dict : M dict :=
  untrimmed ← read_attributes WindBarbOptions_untrimmed_table;
  parent_as_dict ← super_of_instance;
  mret (merge_parent untrimmed parent_as_dict).

(** *** [XRangeOptions], a [BaseBarOptions] *)

Definition partial_fill_set : value → M unit :=
  node_setter "_partial_fill" "PartialFillOptions" false.

(** [XRangeOptions.__init__], ending in [super().__init__], which is
    [BaseBarOptions.__init__]. *)
Definition XRangeOptions_init (kwargs : dict) : M unit :=
  init_private (String.app "_" <$> XRangeOptions_own) ≫= λ _,
  rest ← assign_from_kwargs
           [("group_z_padding", group_z_padding_set);
            ("partial_fill", partial_fill_set)] kwargs;
  BaseBarOptions_init rest.

(** [XRangeOptions._to_untrimmed_dict]. *)
Definition XRangeOptions_to_untrimmed_dict : M dict :=
  untrimmed ← read_attributes XRangeOptions_untrimmed_table;
  parent_as_dict ← super_of_instance;
  mret (merge_parent untrimmed parent_as_dict).

End WithCollaborators.
End Bar.

(** ** [highcharts/plot_options/boxplot.py] *)
Module BoxPlot.

(** The keyword dictionary of [BoxPlotOptions._get_kwargs_from_dict]. *)
Definition BoxPlotOptions_kwargs_table : list (string * string) :=
  [("accessibility", "accessibility");
   ("allow_point_select", "allowPointSelect"); ("animation", "animation");
   ("class_name", "className"); ("clip", "clip"); ("color", "color");
   ("cursor", "cursor"); ("custom", "custom"); ("dash_style", "dashStyle");
   ("data_labels", "dataLabels"); ("description", "description");
   ("enable_mouse_tracking", "enableMouseTracking"); ("events", "events");
   ("include_in_data_export", "includeInDataExport"); ("keys", "keys");
   ("label", "label"); ("linked_to", "linkedTo"); ("marker", "marker");
   ("on_point", "onPoint"); ("opacity", "opacity"); ("point", "point");
   ("point_description_formatter", "pointDescriptionFormatter");
   ("selected", "selected"); ("show_checkbox", "showCheckbox");
   ("show_in_legend", "showInLegend");
   ("skip_keyboard_navigation", "skipKeyboardNavigation");
   ("states", "states"); ("threshold", "threshold"); ("tooltip", "tooltip");
   ("turbo_threshold", "turboThreshold"); ("visible", "visible");
   ("animation_limit", "animationLimit");
   ("boost_blending", "boostBlending");
   ("boost_threshold", "boostThreshold"); ("color_axis", "colorAxis");
   ("color_index", "colorIndex"); ("color_key", "colorKey");
   ("connect_ends", "connectEnds"); ("connect_nulls", "connectNulls");
   ("crisp", "crisp"); ("crop_threshold", "cropThreshold");
   ("data_sorting", "dataSorting"); ("drag_drop", "dragDrop");
   ("fill_color", "fillColor"); ("fill_opacity", "fillOpacity");
   ("find_nearest_point_by", "findNearestPointBy");
   ("get_extremes_for_all", "getExtremesForAll"); ("linecap", "linecap");
   ("line_color", "lineColor"); ("line_width", "lineWidth");
   ("negative_color", "negativeColor");
   ("negative_fill_color", "negativeFillColor");
   ("point_interval", "pointInterval");
   ("point_interval_unit", "pointIntervalUnit");
   ("point_placement", "pointPlacement"); ("point_start", "pointStart");
   ("relative_x_value", "relativeXValue"); ("shadow", "shadow");
   ("soft_threshold", "softThreshold"); ("stacking", "stacking");
   ("step", "step"); ("track_by_area", "trackByArea");
   ("zone_axis", "zoneAxis"); ("zones", "zones");
   ("border_color", "borderColor"); ("border_radius", "borderRadius");
   ("border_width", "borderWidth");
   ("center_in_category", "centerInCategory");
   ("color_by_point", "colorByPoint"); ("depth", "depth");
   ("edge_color", "edgeColor"); ("edge_width", "edgeWidth");
   ("grouping", "grouping"); ("group_padding", "groupPadding");
   ("group_z_padding", "groupZPadding");
   ("max_point_width", "maxPointWidth");
   ("min_point_length", "minPointLength"); ("point_padding", "pointPadding");
   ("point_range", "pointRange"); ("point_width", "pointWidth");
   ("box_dash_style", "boxDashStyle"); ("median_color", "medianColor");
   ("median_dash_style", "medianDashStyle"); ("median_width", "medianWidth");
   ("stem_dash_style", "stemDashStyle"); ("stem_width", "stemWidth");
   ("whisker_color", "whiskerColor");
   ("whisker_dash_style", "whiskerDashStyle");
   ("whisker_length", "whiskerLength"); ("whisker_width", "whiskerWidth")].

(** The dictionary literal of [BoxPlotOptions._to_untrimmed_dict]. *)
Definition BoxPlotOptions_untrimmed_table : list (string * string) :=
  [("boxDashStyle", "box_dash_style"); ("medianColor", "median_color");
   ("medianDashStyle", "median_dash_style"); ("medianWidth", "median_width");
   ("stemDashStyle", "stem_dash_style"); ("stemWidth", "stem_width");
   ("whiskerColor", "whisker_color");
   ("whiskerDashStyle", "whisker_dash_style");
   ("whiskerLength", "whisker_length"); ("whiskerWidth", "whisker_width")].

(** The attributes [BoxPlotOptions] declares itself, in the order of its
    [__init__]. *)
Definition BoxPlotOptions_own : list string :=
  ["box_dash_style"; "median_color"; "median_dash_style"; "median_width";
   "stem_dash_style"; "stem_width"; "whisker_color"; "whisker_dash_style";
   "whisker_length"; "whisker_width"].


Section WithCollaborators.
Context `{Collaborators}.

(** [value not in constants.SUPPORTED_DASH_STYLE_VALUES]. *)
Definition not_supported_dash_style (v : value) : bool :=
  match v with
  | VStr s => negb (bool_decide (s ∈ SUPPORTED_DASH_STYLE_VALUES))
  | _ => true
  end.

(** The setter of [box_dash_style], [median_dash_style],
    [stem_dash_style] and [whisker_dash_style]; the four bodies differ in
    the attribute only. *)
Definition dash_style_setter (attr : string) (v : value) : M unit :=
  if negb (truthy v) then setattr ("_" +:+ attr) VNone
  else
    s ← lift (validators_string v false);
    if not_supported_dash_style s then raise HighchartsValueError
    else setattr ("_" +:+ attr) s.

Definition box_dash_style_set : value → M unit :=
  dash_style_setter "box_dash_style".

(** [BoxPlotOptions.drag_drop], the setter. *)
Definition drag_drop_set : value → M unit :=
  node_setter "_drag_drop" "BoxPlotDragDropOptions" false.

Definition median_color_set : value → M unit := color_setter "_median_color".

Definition median_dash_style_set : value → M unit :=
  dash_style_setter "median_dash_style".

Definition median_width_set : value → M unit :=
  numeric_setter "_median_width" true.

Definition stem_dash_style_set : value → M unit :=
  dash_style_setter "stem_dash_style".

Definition stem_width_set : value → M unit := numeric_setter "_stem_width" true.

Definition whisker_color_set : value → M unit :=
  color_setter "_whisker_color".

Definition whisker_dash_style_set : value → M unit :=
  dash_style_setter "whisker_dash_style".

(** [BoxPlotOptions.whisker_length], the setter. *)
Definition whisker_length_set (v : value) : M unit :=
  if is_None v then setattr "_whisker_length" VNone
  else
    x ← lift (try_except_ValueError
                (s ← validators_string v false;
                 if negb (dict_or_str_has "%" s) then Raise ValueError
                 else Ok s)
                (validators_numeric v true true));
    setattr "_whisker_length" x.

Definition whisker_width_set : value → M unit :=
  numeric_setter "_whisker_width" true.

Definition BoxPlotOptions_setters : list (string * (value → M unit)) :=
  [("box_dash_style", box_dash_style_set); ("median_color", median_color_set);
   ("median_dash_style", median_dash_style_set);
   ("median_width", median_width_set);
   ("stem_dash_style", stem_dash_style_set); ("stem_width", stem_width_set);
   ("whisker_color", whisker_color_set);
   ("whisker_dash_style", whisker_dash_style_set);
   ("whisker_length", whisker_length_set);
   ("whisker_width", whisker_width_set)].

Definition BoxPlotOptions_assign (kwargs : dict) : M dict :=
  init_private (String.app "_" <$> BoxPlotOptions_own) ≫= λ _,
  assign_from_kwargs BoxPlotOptions_setters kwargs.

(** [BoxPlotOptions.__init__], ending in [super(self).__init__]. *)
Definition BoxPlotOptions_init (kwargs : dict) : M unit :=
  BoxPlotOptions_assign kwargs ≫= λ _, super_of_instance.

(** [BoxPlotOptions._get_kwargs_from_dict]. *)
Definition BoxPlotOptions_get_kwargs_from_dict (as_dict : dict) : dict :=
  (pop_recognized BoxPlotOptions_kwargs_table as_dict).1.

(** [BoxPlotOptions._to_untrimmed_dict]; [ErrorBarOptions] inherits it
    unchanged. *)
Definition BoxPlotOptions_to_untrimmed_dict : M dict :=
  untrimmed ← read_attributes BoxPlotOptions_untrimmed_table;
  parent_as_dict ← super_of_instance;
  mret (merge_parent untrimmed parent_as_dict).

End WithCollaborators.
End BoxPlot.

(** ** [highcharts/plot_options/venn.py] *)
Module Venn.

(** The keyword dictionary of [VennOptions._get_kwargs_from_dict]. *)
Definition VennOptions_kwargs_table : list (string * string) :=
  [("accessibility", "accessibility");
   ("allow_point_select", "allowPointSelect"); ("animation", "animation");
   ("class_name", "className"); ("clip", "clip"); ("color", "color");
   ("cursor", "cursor"); ("custom", "custom"); ("dash_style", "dashStyle");
   ("data_labels", "dataLabels"); ("description", "description");
   ("enable_mouse_tracking", "enableMouseTracking"); ("events", "events");
   ("include_in_data_export", "includeInDataExport"); ("keys", "keys");
   ("label", "label"); ("linked_to", "linkedTo"); ("marker", "marker");
   ("on_point", "onPoint"); ("opacity", "opacity"); ("point", "point");
   ("point_description_formatter", "pointDescriptionFormatter");
   ("selected", "selected"); ("show_checkbox", "showCheckbox");
   ("show_in_legend", "showInLegend");
   ("skip_keyboard_navigation", "skipKeyboardNavigation");
   ("states", "states"); ("sticky_tracking", "stickyTracking");
   ("threshold", "threshold"); ("tooltip", "tooltip");
   ("turbo_threshold", "turboThreshold"); ("visible", "visible");
   ("animation_limit", "animationLimit"); ("color_axis", "colorAxis");
   ("color_index", "colorIndex"); ("color_key", "colorKey");
   ("crisp", "crisp"); ("relative_x_value", "relativeXValue");
   ("step", "step"); ("border_dash_style", "borderDashStyle");
   ("brighten", "brighten"); ("cluster", "cluster")].

(** The dictionary literal of [VennOptions._to_untrimmed_dict]. *)
Definition VennOptions_untrimmed_table : list (string * string) :=
  [("animation_limit", "animation_limit"); ("color_axis", "color_axis");
   ("color_index", "color_index"); ("color_key", "color_key");
   ("crisp", "crisp"); ("relative_x_value", "relative_x_value");
   ("step", "step"); ("border_dash_style", "border_dash_style");
   ("brighten", "brighten"); ("cluster", "cluster")].

(** The attributes [VennOptions] declares itself, in the order of its
    [__init__]. *)
Definition VennOptions_own : list string :=
  ["animation_limit"; "color_axis"; "color_index"; "color_key"; "crisp";
   "relative_x_value"; "step"; "border_dash_style"; "brighten"; "cluster"].

(** [value == float('inf')]. *)
Definition is_inf (v : value) : bool :=
  match v with
  | VFloat f => PrimFloat.eqb f infinity
  | _ => false
  end.

Section WithCollaborators.
Context `{Collaborators}.

(** [VennOptions.animation_limit], the setter. *)
Definition animation_limit_set (v : value) : M unit :=
  if is_inf v then setattr "_animation_limit" (VFloat infinity)
  else numeric_setter "_animation_limit" true v.

Definition border_dash_style_set : value → M unit :=
  string_setter "_border_dash_style".

Definition brighten_set : value → M unit := numeric_setter "_brighten" false.

Definition cluster_set : value → M unit :=
  node_setter "_cluster" "ClusterOptions" false.

(** [VennOptions.color_axis], the setter. *)
Definition color_axis_set (v : value) : M unit :=
  match v with
  | VNone => setattr "_color_axis" VNone
  | VBool false => setattr "_color_axis" (VBool false)
  | _ =>
      x ← lift (try_except_TypeError (validators_string v false)
                                     (validators_integer v false true));
      setattr "_color_axis" x
  end.

Definition color_index_set : value → M unit := integer_setter "_color_index".

Definition color_key_set : value → M unit := string_setter "_color_key".

Definition crisp_set : value → M unit := bool_setter "_crisp".

Definition relative_x_value_set : value → M unit :=
  bool_setter "_relative_x_value".

Definition step_set : value → M unit := string_setter "_step".

Definition VennOptions_setters : list (string * (value → M unit)) :=
  [("animation_limit", animation_limit_set); ("color_axis", color_axis_set);
   ("color_index", color_index_set); ("color_key", color_key_set);
   ("crisp", crisp_set); ("relative_x_value", relative_x_value_set);
   ("step", step_set); ("border_dash_style", border_dash_style_set);
   ("brighten", brighten_set); ("cluster", cluster_set)].

(** [GenericTypeOptions.__init__] and
    [GenericTypeOptions._to_untrimmed_dict], reached through [super()]. *)
Definition GenericTypeOptions_init : dict → M unit :=
  parent_init (inherited VennOptions_kwargs_table VennOptions_own).

Definition GenericTypeOptions_to_untrimmed_dict : M dict :=
  parent_to_untrimmed_dict (inherited VennOptions_kwargs_table VennOptions_own).

(** [VennOptions.__init__]; [_relative_x_value] starts as [False]. *)
Definition VennOptions_init (kwargs : dict) : M unit :=
  init_private ["_animation_limit"; "_color_axis"; "_color_index";
                "_color_key"; "_crisp"] ≫= λ _,
  setattr "_relative_x_value" (VBool false) ≫= λ _,
  init_private ["_step"; "_border_dash_style"; "_brighten"; "_cluster"] ≫= λ _,
  rest ← assign_from_kwargs VennOptions_setters kwargs;
  GenericTypeOptions_init rest.

(** [VennOptions._get_kwargs_from_dict]. *)
Definition VennOptions_get_kwargs_from_dict (as_dict : dict) : dict :=
  (pop_recognized VennOptions_kwargs_table as_dict).1.

(** [VennOptions._to_untrimmed_dict]; [x or {}] is [x] for a mapping that
    is not empty and the empty mapping otherwise. *)
Definition VennOptions_to_untrimmed_dict : M dict :=
  untrimmed ← read_attributes VennOptions_untrimmed_table;
  parent_as_dict ← GenericTypeOptions_to_untrimmed_dict;
  mret (merge_parent untrimmed parent_as_dict).

End WithCollaborators.
End Venn.

(** ** Reading the key tables *)

(** The key a serializer literal emits for an attribute, and the wire key
    a keyword extractor pops for it. *)
Definition emitted_key (literal : list (string * string)) (attr : string)
  : option string :=
  (λ found, found.2.1) <$> list_find (λ entry, entry.2 = attr) literal.

Definition recognized_key (table : list (string * string)) (attr : string)
  : option string :=
  (λ found, found.2.2) <$> list_find (λ entry, entry.1 = attr) table.

(** The attributes of a serializer literal whose emitted key is not the
    key the extractor of the same class recognizes. *)
Definition mismatched (literal table : list (string * string)) : list string :=
  snd <$> filter (λ entry, recognized_key table entry.2 ≠ Some entry.1) literal.

(** Every serializer literal of the four modules, by method. *)
Definition serializer_literals : list (string * list (string * string)) :=
  [("NumericAxis.to_dict", Numeric.NumericAxis_to_dict_table);
   ("VennOptions._to_untrimmed_dict", Venn.VennOptions_untrimmed_table);
   ("BaseBarOptions._to_untrimmed_dict", Bar.BaseBarOptions_untrimmed_table);
   ("BarOptions._to_untrimmed_dict", Bar.BarOptions_untrimmed_table);
   ("WaterfallOptions._to_untrimmed_dict", Bar.WaterfallOptions_untrimmed_table);
   ("WindBarbOptions._to_untrimmed_dict", Bar.WindBarbOptions_untrimmed_table);
   ("XRangeOptions._to_untrimmed_dict", Bar.XRangeOptions_untrimmed_table);
   ("BoxPlotOptions._to_untrimmed_dict", BoxPlot.BoxPlotOptions_untrimmed_table)].

(** The methods whose literal emits the key [k]. *)
Definition emitters (k : string) : list string :=
  fst <$> filter (λ lit, k ∈ lit.2.*1) serializer_literals.

(** The mapping a serializer literal evaluates to when every attribute
    is looked up with [look]. *)
Definition literal_value (look : string → value)
    (table : list (string * string)) (acc : dict) : dict :=
  foldl (λ d entry, dict_set entry.1 (look entry.2) d) acc table.

(** What a method makes of the outcome [before] of its own statements
    when it then calls [super(self)]: it never returns; it raises
    [TypeError], unless its own statements raised first. *)
Definition fails_at_super {A B} (before : result A) (whole : result B) : Prop :=
  (∃ a, before = Ok a ∧ whole = Raise TypeError)
  ∨ (∃ e, before = Raise e ∧ whole = Raise e).

(** The initializers of the bar scenario, in wire form. *)
Definition bar_scenario : dict :=
  [("pointPadding", VFloat 0x1.999999999999ap-4%float);
   ("borderWidth", VNone); ("colorByPoint", VBool false)].


(** A plot band as the setter of [plot_bands] stores it: a one-element
    list with a [PlotBand] from 1 to 2. *)
Definition one_plot_band : value :=
  VList [VObj "PlotBand" [("from", VInt 1); ("to", VInt 2)]].

(** ** Setters as a whole *)

(** A setter is atomic on a private attribute when, for every value and
    whatever the instance holds, it either assigns that one attribute and
    returns, or raises and assigns nothing; which of the two, and the
    value or the error, depends on the value alone. *)
Definition atomic_setter (private : string) (setter : value → M unit) : Prop :=
  ∀ v,
    (∃ x, ∀ self, setter v self = (<[private := x]> self, Ok tt))
    ∨ (∃ e, ∀ self, setter v self = (self, Raise e)).

(** The guards of [NumericAxis.alternate_grid_color] under which a
    branch other than the final [else] is taken on a truthy value. *)
Definition resolvable_color (v : value) : bool :=
  isinstance_of "Gradient" v || isinstance_of "Pattern" v
  || dict_or_str_has "linearGradient" v
  || is_dict v && dict_or_str_has "linear_gradient" v
  || dict_or_str_has "patternOptions" v
  || is_dict v && dict_or_str_has "pattern_options" v.


(** What a keyword extractor with the literal [table] makes of
    [as_dict]: the keys of [kwargs] are the attributes of the literal, in
    order, and each holds the value found under its wire key, null when
    the key is absent. *)
Definition extracts (table : list (string * string)) (as_dict kwargs : dict)
  : Prop :=
  dict_keys kwargs = table.*1
  ∧ Forall (λ entry, dict_get entry.1 kwargs
                     = Some (default VNone (dict_get entry.2 as_dict))) table.

Section Setters_of_the_modules.
Context `{Collaborators}.

(** Every property setter of the four modules, by attribute. *)
Definition all_setters : list (string * (value → M unit)) :=
  (Numeric.NumericAxis_setters ++ Bar.BaseBarOptions_setters
  ++ Bar.BarOptions_setters
  ++ [("line_color", Bar.line_color_set); ("up_color", Bar.up_color_set);
      ("data_grouping", Bar.data_grouping_set);
      ("on_series", Bar.on_series_set);
      ("vector_length", Bar.vector_length_set);
      ("x_offset", Bar.x_offset_set); ("y_offset", Bar.y_offset_set);
      ("partial_fill", Bar.partial_fill_set)]
  ++ BoxPlot.BoxPlotOptions_setters ++ [("drag_drop", BoxPlot.drag_drop_set)]
  ++ Venn.VennOptions_setters)%list.

(** The setters whose first statement is [if not value]. *)
Definition falsy_clearing_setters : list (string * (value → M unit)) :=
  [("alternate_grid_color", Numeric.alternate_grid_color_set);
   ("categories", Numeric.categories_set);
   ("colors", Bar.colors_set);
   ("box_dash_style", BoxPlot.box_dash_style_set);
   ("median_dash_style", BoxPlot.median_dash_style_set);
   ("stem_dash_style", BoxPlot.stem_dash_style_set);
   ("whisker_dash_style", BoxPlot.whisker_dash_style_set)].

End Setters_of_the_modules.

(** The error of a serializer that reads its own literal and then asks
    [super(self)] for the parent mapping: the [AttributeError] of the
    first attribute that was never assigned, or else the [TypeError] of
    [super(self)]. *)
Definition serializer_error (table : list (string * string))
    (self : gmap string value) : exc :=
  if forallb (λ entry, bool_decide (is_Some (self !! ("_" +:+ entry.2)))) table
  then TypeError else AttributeError.

(** A numeric axis and a Venn node as their constructors leave them,
    the untrimmed mapping of the former, and the wire form of the same
    axis once it holds a plot band. *)
Definition a_numeric_axis : gmap string value :=
  (@Numeric.NumericAxis_init strict [("align_ticks", VBool false)] ∅).1.

Definition a_numeric_axis_untrimmed : dict :=
  match (Numeric.NumericAxis_untrimmed a_numeric_axis).2 with
  | Ok untrimmed => untrimmed
  | Raise _ => []
  end.

Definition a_numeric_axis_wire : dict :=
  match Numeric.NumericAxis_to_dict
          (<["_plot_bands" := one_plot_band]> a_numeric_axis) with
  | Ok wire => wire
  | Raise _ => []
  end.

Definition a_venn : gmap string value :=
  (@Venn.VennOptions_init strict [("crisp", VBool true)] ∅).1.

(** * Properties *)

(** Closed facts about the key tables are settled by evaluation. *)
Ltac by_evaluation := apply (bool_decide_unpack _); vm_compute; exact I.

(** ** The monad *)

Lemma fmap_Ok_inv {A B} (f : A → B) (r : result A) (b : B) :
  f <$> r = Ok b → ∃ a, r = Ok a ∧ b = f a.
Proof. destruct r as [a|e]; [intros [= <-]; eauto|discriminate]. Qed.

Lemma bind_run {A B} (m : M A) (k : A → M B) self :
  (m ≫= k) self =
  match m self with
  | (self', Ok a) => k a self'
  | (self', Raise e) => (self', Raise e)
  end.
Proof. reflexivity. Qed.

Lemma bind_lift {A B} (r : result A) (k : A → M B) self :
  (lift r ≫= k) self =
  match r with
  | Ok a => k a self
  | Raise e => (self, Raise e)
  end.
Proof. destruct r; reflexivity. Qed.

(** The opening assignments of an [__init__] never raise. *)
Lemma init_private_run names : ∀ self,
  init_private names self
  = (foldl (λ attrs name, <[name := VNone]> attrs) self names, Ok tt).
Proof.
  induction names as [|name names IH]; intros self; [reflexivity|].
  cbn [init_private foldl]. rewrite bind_run. cbn [setattr]. apply IH.
Qed.

(** ** Methods that end in [super(self)] *)

Lemma fails_at_super_intro {A B} (before : result A) :
  fails_at_super before
    (match before with Ok _ => @Raise B TypeError | Raise e => Raise e end).
Proof. destruct before as [a|e]; [left|right]; eauto. Qed.

Lemma fails_at_super_not_Ok {A B} (before : result A) (whole : result B) :
  fails_at_super before whole → is_Ok whole = false.
Proof. intros [(a & _ & ->)|(e & _ & ->)]; reflexivity. Qed.

(** A constructor whose [__init__] ends in [super(self)]. *)
Lemma construct_then_super_of_instance {A} (assign : dict → M A) kwargs :
  construct (λ kw, assign kw ≫= λ _, super_of_instance) kwargs =
  match (assign kwargs ∅).2 with
  | Ok _ => Raise TypeError
  | Raise e => Raise e
  end.
Proof.
  unfold construct. rewrite bind_run.
  destruct (assign kwargs ∅) as [self' [a|e]]; reflexivity.
Qed.

(** A serializer whose parent mapping is asked of [super(self)]. *)
Lemma serializer_super_of_instance {A B C} (m : M A) (k : A → B → M C) self :
  ((m ≫= λ a, super_of_instance ≫= k a) self).2 =
  match (m self).2 with
  | Ok _ => Raise TypeError
  | Raise e => Raise e
  end.
Proof. rewrite bind_run. destruct (m self) as [self' [a|e]]; reflexivity. Qed.

(** ** Dictionaries *)

Lemma dict_get_set (k k' : string) (v : value) : ∀ d,
  dict_get k (dict_set k' v d) = if String.eqb k' k then Some v else dict_get k d.
Proof.
  induction d as [|[k0 x] d IH]; cbn [dict_set dict_get].
  - destruct (String.eqb k' k); reflexivity.
  - destruct (String.eqb k0 k') eqn:H0; cbn [dict_get].
    + apply String.eqb_eq in H0 as ->.
      destruct (String.eqb k' k); reflexivity.
    + rewrite IH. destruct (String.eqb k0 k) eqn:Hk; [|reflexivity].
      apply String.eqb_eq in Hk as ->. rewrite String.eqb_sym, H0. reflexivity.
Qed.

Lemma dict_get_remove (k k' : string) : ∀ d,
  dict_get k (dict_remove k' d) = if String.eqb k' k then None else dict_get k d.
Proof.
  induction d as [|[k0 x] d IH]; cbn [dict_remove dict_get].
  - destruct (String.eqb k' k); reflexivity.
  - destruct (String.eqb k0 k') eqn:H0.
    + apply String.eqb_eq in H0 as ->. rewrite IH.
      destruct (String.eqb k' k); reflexivity.
    + cbn [dict_get]. rewrite IH.
      destruct (String.eqb k0 k) eqn:Hk; [|reflexivity].
      apply String.eqb_eq in Hk as ->. rewrite String.eqb_sym, H0. reflexivity.
Qed.

Lemma nonempty_string_truthy (s : string) : s ≠ "" → truthy (VStr s) = true.
Proof.
  intros Hs. cbn [truthy]. apply negb_true_iff, String.eqb_neq, Hs.
Qed.

(** A value in which a key is found, as a dictionary key or as a
    substring, is not empty. *)
Lemma dict_or_str_has_truthy (k : string) (v : value) :
  k ≠ "" → dict_or_str_has k v = true → truthy v = true.
Proof.
  intros Hk Hhas. destruct v as [| | | |s| |entries|]; try discriminate.
  - destruct s; [|reflexivity]. destruct k; [congruence|discriminate].
  - destruct entries; [discriminate|reflexivity].
Qed.

Lemma dict_or_str_has_kind (k : string) (v : value) :
  dict_or_str_has k v = true → is_str v = true ∨ is_dict v = true.
Proof. destruct v; try discriminate; auto. Qed.

(** ** Reading attributes *)

Lemma getattr_run name self :
  getattr name self =
  (self, match self !! name with Some v => Ok v | None => Raise AttributeError end).
Proof. unfold getattr. destruct (self !! name); reflexivity. Qed.

(** A serializer literal leaves the instance as it is, and either
    evaluates to its entries or stops at an attribute that is not set. *)
Lemma read_attributes_into_run table : ∀ acc self,
  read_attributes_into table acc self =
  (self,
   if forallb (λ entry, bool_decide (is_Some (self !! ("_" +:+ entry.2)))) table
   then Ok (literal_value (λ attr, default VNone (self !! ("_" +:+ attr))) table acc)
   else Raise AttributeError).
Proof.
  induction table as [|[key attr] table IH]; intros acc self; [reflexivity|].
  cbn [read_attributes_into forallb literal_value foldl].
  rewrite bind_run. unfold property_get. rewrite getattr_run. cbn [fst snd].
  destruct (self !! ("_" +:+ attr)) as [v|] eqn:Hv.
  - rewrite IH. rewrite bool_decide_eq_true_2 by eauto. reflexivity.
  - rewrite bool_decide_eq_false_2 by (intros [? ?]; discriminate). reflexivity.
Qed.

Lemma read_attributes_run table self :
  read_attributes table self =
  (self,
   if forallb (λ entry, bool_decide (is_Some (self !! ("_" +:+ entry.2)))) table
   then Ok (literal_value (λ attr, default VNone (self !! ("_" +:+ attr))) table [])
   else Raise AttributeError).
Proof. apply read_attributes_into_run. Qed.

(** ** Key extraction *)

(** An attribute that the rest of the table does not name keeps the
    value the keyword dictionary already has for it. *)
Lemma pop_recognized_into_other (attr : string) : ∀ table as_dict kwargs,
  attr ∉ table.*1 →
  dict_get attr (pop_recognized_into table as_dict kwargs).1 = dict_get attr kwargs.
Proof.
  induction table as [|[attr0 key0] table IH]; intros as_dict kwargs Hnot;
    [reflexivity|].
  cbn [fmap list_fmap fst] in Hnot.
  apply not_elem_of_cons in Hnot as [Hne Hnot].
  cbn [pop_recognized_into]. rewrite IH by assumption.
  rewrite dict_get_set.
  destruct (String.eqb attr0 attr) eqn:Heq; [|reflexivity].
  apply String.eqb_eq in Heq. congruence.
Qed.

(** The extractor of a class hands every attribute of its table the
    value found under the wire key of its entry, null when the key is
    absent. *)
Lemma pop_recognized_into_entry (attr key : string) : ∀ table as_dict kwargs,
  NoDup table.*1 → NoDup table.*2 → (attr, key) ∈ table →
  dict_get attr (pop_recognized_into table as_dict kwargs).1
  = Some (default VNone (dict_get key as_dict)).
Proof.
  induction table as [|[attr0 key0] table IH];
    intros as_dict kwargs Hattrs Hkeys Hin;
    [apply elem_of_nil in Hin; destruct Hin|].
  cbn [fmap list_fmap fst snd] in Hattrs, Hkeys.
  apply NoDup_cons in Hattrs as [Hattr0 Hattrs].
  apply NoDup_cons in Hkeys as [Hkey0 Hkeys].
  cbn [pop_recognized_into dict_pop fst snd].
  apply elem_of_cons in Hin as [[= -> ->]|Hin].
  - rewrite pop_recognized_into_other by assumption.
    rewrite dict_get_set, String.eqb_refl. reflexivity.
  - rewrite IH by assumption. rewrite dict_get_remove.
    destruct (String.eqb key0 key) eqn:Heq; [|reflexivity].
    apply String.eqb_eq in Heq as ->. exfalso. apply Hkey0.
    apply (list_elem_of_fmap_2 snd _ _ Hin).
Qed.

(** ** Trimming *)

Lemma trim_dict_get k v v' : ∀ d,
  dict_get k d = Some v → trim v = Some v' →
  dict_get k (trim_dict d) = Some v'.
Proof.
  induction d as [|[k0 x] d IH]; intros Hget Htrim; [discriminate|].
  cbn [dict_get] in Hget. cbn [trim_dict].
  destruct (String.eqb k0 k) eqn:Hk.
  - injection Hget as ->. rewrite Htrim. cbn [dict_get]. rewrite Hk. reflexivity.
  - destruct (trim x); [cbn [dict_get]; rewrite Hk|]; auto.
Qed.

Lemma trim_dict_get_None k : ∀ d,
  dict_get k d = None → dict_get k (trim_dict d) = None.
Proof.
  induction d as [|[k0 x] d IH]; intros Hget; [reflexivity|].
  cbn [dict_get] in Hget. cbn [trim_dict].
  destruct (String.eqb k0 k) eqn:Hk; [discriminate|].
  destruct (trim x); [cbn [dict_get]; rewrite Hk|]; auto.
Qed.

(** The two readings of trimming agree: a mapping as a value is trimmed
    entry by entry and removed when nothing is left. *)
Lemma trim_VDict (d : dict) :
  trim (VDict d) = match trim_dict d with [] => None | kept => Some (VDict kept) end.
Proof.
  cbn [trim].
  match goal with
  | |- match ?go d with _ => _ end = _ =>
      assert (Hsame : ∀ entries, go entries = trim_dict entries)
  end.
  { induction entries as [|[k x] rest IH]; [reflexivity|].
    cbn [trim_dict]. rewrite <- IH. reflexivity. }
  rewrite Hsame. reflexivity.
Qed.

(** ** Boolean attributes *)

Lemma bool_setter_run private v self :
  bool_setter private v self =
  (<[private := if is_None v then VNone else VBool (truthy v)]> self, Ok tt).
Proof. unfold bool_setter. destruct (is_None v); reflexivity. Qed.


(** ** The numeric axis on the wire *)

(** What the literal of [NumericAxis.to_dict] evaluates to: the keys it
    holds for [plot_bands], [class_name] and [align_ticks]. *)
Lemma literal_value_numeric_axis (look : string → value) :
  dict_get "plotPands"
    (literal_value look Numeric.NumericAxis_to_dict_table []) = Some (look "plot_bands")
  ∧ dict_get "plotBands"
      (literal_value look Numeric.NumericAxis_to_dict_table []) = None
  ∧ dict_get "class_name"
      (literal_value look Numeric.NumericAxis_to_dict_table []) = Some (look "class_name")
  ∧ dict_get "className"
      (literal_value look Numeric.NumericAxis_to_dict_table []) = None
  ∧ dict_get "alignTicks"
      (literal_value look Numeric.NumericAxis_to_dict_table []) = Some (look "align_ticks").
Proof. split_and!; vm_compute; reflexivity. Qed.

(** [NumericAxis.to_dict] returns a mapping exactly on an instance that
    has every attribute of the literal, and the mapping is the trimmed
    literal. *)
Lemma NumericAxis_to_dict_run self wire :
  Numeric.NumericAxis_to_dict self = Ok wire →
  wire = trim_dict
           (literal_value (λ attr, default VNone (self !! ("_" +:+ attr)))
                          Numeric.NumericAxis_to_dict_table [])
  ∧ ∀ key attr, (key, attr) ∈ Numeric.NumericAxis_to_dict_table →
                is_Some (self !! ("_" +:+ attr)).
Proof.
  unfold Numeric.NumericAxis_to_dict, Numeric.NumericAxis_untrimmed.
  rewrite read_attributes_run. cbn [snd].
  intros (literal & Hliteral & ->)%fmap_Ok_inv.
  destruct (forallb _ _) eqn:Hall; [|discriminate].
  injection Hliteral as <-. split; [reflexivity|].
  intros key attr Hin. rewrite forallb_forall in Hall.
  apply list_elem_of_In, Hall, bool_decide_eq_true in Hin. exact Hin.
Qed.

Lemma NumericAxis_from_dict_table_NoDup :
  NoDup Numeric.NumericAxis_from_dict_table.*1
  ∧ NoDup Numeric.NumericAxis_from_dict_table.*2.
Proof. split; by_evaluation. Qed.

(** The round trip of the numeric axis loses two attributes: whatever
    [plot_bands] and [class_name] hold on the instance, [from_dict] passes
    null for both to the constructor when given the wire form that
    [to_dict] produced. *)
Lemma numeric_axis_round_trip_loses_plot_bands self wire :
  Numeric.NumericAxis_to_dict self = Ok wire →
  dict_get "plot_bands"
    (pop_recognized Numeric.NumericAxis_from_dict_table wire).1 = Some VNone
  ∧ dict_get "class_name"
      (pop_recognized Numeric.NumericAxis_from_dict_table wire).1 = Some VNone.
Proof.
  intros Hwire. apply NumericAxis_to_dict_run in Hwire as [-> _].
  pose proof (literal_value_numeric_axis
                (λ attr, default VNone (self !! ("_" +:+ attr))))
    as (_ & Hbands & _ & Hclass & _).
  apply trim_dict_get_None in Hbands, Hclass.
  destruct NumericAxis_from_dict_table_NoDup as [Hattrs Hkeys].
  unfold pop_recognized. split.
  - rewrite (pop_recognized_into_entry "plot_bands" "plotBands")
      by (assumption || by_evaluation).
    rewrite Hbands. reflexivity.
  - rewrite (pop_recognized_into_entry "class_name" "className")
      by (assumption || by_evaluation).
    rewrite Hclass. reflexivity.
Qed.

(** On the numeric axis a stored [False] does survive serialization:
    [to_dict] emits ["alignTicks"] with the value [False]. *)
Lemma numeric_axis_keeps_False self wire :
  Numeric.NumericAxis_to_dict self = Ok wire →
  self !! "_align_ticks" = Some (VBool false) →
  dict_get "alignTicks" wire = Some (VBool false).
Proof.
  intros Hwire Hfalse. apply NumericAxis_to_dict_run in Hwire as [-> _].
  pose proof (literal_value_numeric_axis
                (λ attr, default VNone (self !! ("_" +:+ attr))))
    as (_ & _ & _ & _ & Halign).
  eapply trim_dict_get; [exact Halign|].
  change ("_" +:+ "align_ticks") with "_align_ticks".
  rewrite Hfalse. reflexivity.
Qed.

Section Setters.
Context `{Collaborators}.

(** ** The polymorphic color of the numeric axis *)

(** C3 (the code departs from this claim): a plain color string, one
    that is not empty and holds neither ['linearGradient'] nor
    ['patternOptions'], should be stored as it is.  The setter of
    [NumericAxis.alternate_grid_color] has no branch for it: it raises
    [HighchartsValueError] and assigns nothing. *)
Theorem plain_string_color_is_rejected (s : string) self :
  s ≠ "" →
  str_contains "linearGradient" s = false →
  str_contains "patternOptions" s = false →
  Numeric.alternate_grid_color_set (VStr s) self
  = (self, Raise HighchartsValueError).
Proof.
  intros Hs Hgradient Hpattern. unfold Numeric.alternate_grid_color_set.
  rewrite nonempty_string_truthy by assumption.
  cbn [negb isinstance_of orb is_dict andb dict_or_str_has].
  rewrite Hgradient, Hpattern. reflexivity.
Qed.



(** ** Dash styles of the box plot *)

Lemma dash_style_setter_run (attr s : string) self :
  s ≠ "" →
  BoxPlot.dash_style_setter attr (VStr s) self =
  if bool_decide (s ∈ SUPPORTED_DASH_STYLE_VALUES)
  then (<["_" +:+ attr := VStr s]> self, Ok tt)
  else (self, Raise HighchartsValueError).
Proof.
  intros Hs. unfold BoxPlot.dash_style_setter, validators_string.
  rewrite nonempty_string_truthy by assumption.
  cbn [negb is_str]. rewrite bind_lift.
  cbn [BoxPlot.not_supported_dash_style].
  destruct (bool_decide (s ∈ SUPPORTED_DASH_STYLE_VALUES)); reflexivity.
Qed.


(** The border dash style of [VennOptions] is a plain string attribute:
    its setter checks no membership and stores any string. *)
Lemma venn_border_dash_style_is_a_plain_string (s : string) self :
  s ≠ "" →
  Venn.border_dash_style_set (VStr s) self
  = (<["_border_dash_style" := VStr s]> self, Ok tt).
Proof.
  intros Hs. unfold Venn.border_dash_style_set, string_setter, validators_string.
  rewrite nonempty_string_truthy by assumption. reflexivity.
Qed.

(** ** The colors of a bar *)

(** Nothing that [validators.iterable] lets through is a string, so the
    string branch of the loop is dead on every input. *)
Lemma validators_iterable_not_str (v whole : value) :
  validators_iterable v = Ok whole → is_str whole = false.
Proof.
  unfold validators_iterable. destruct (negb (truthy v)); [discriminate|].
  destruct v; try discriminate; intros [= <-]; reflexivity.
Qed.

(** C10: on a list, the setter of [BaseBarOptions.colors] never takes
    the plain-string branch of its loop, whose guard looks at the whole
    input: an empty list stores null, and otherwise every item, plain
    color strings included, goes through [validate_types] against
    [Gradient] and [Pattern]; the list is stored only if all of them pass,
    and the first failure is raised with nothing assigned. *)
Theorem colors_list_items_all_validated (items : list value) self :
  Bar.colors_set (VList items) self =
  match items with
  | [] => (<["_colors" := VNone]> self, Ok tt)
  | _ =>
      match mapM (validate_types ["Gradient"; "Pattern"]) items with
      | Ok checked => (<["_colors" := VList checked]> self, Ok tt)
      | Raise e => (self, Raise e)
      end
  end.
Proof.
  destruct items as [|item items]; [reflexivity|].
  unfold Bar.colors_set, validators_iterable.
  cbn [truthy negb]. rewrite bind_lift, bind_lift. cbn [py_iter].
  change (Bar.colors_check_item (VList (item :: items)))
    with (validate_types ["Gradient"; "Pattern"]).
  destruct (mapM _ (item :: items)); reflexivity.
Qed.

End Setters.

Section Construction.
Context `{Collaborators}.

(** ** Construction of the bar and box-plot families *)

(** C9 (as amended): constructing a [BaseBarOptions], a [BarOptions] or
    a [BoxPlotOptions] never returns an instance, whatever the keyword
    arguments: [__init__] raises [TypeError] at [super(self)] when all
    the assignments of the class's own attributes pass, as they do
    without arguments, and raises the error of the first assignment that
    fails otherwise.  [BaseBarOptions._to_untrimmed_dict] never returns a
    mapping either: it raises [TypeError] at [super(self)] once its own
    literal has been read. *)
Theorem bar_family_never_constructs (kwargs : dict) self :
  fails_at_super (Bar.BaseBarOptions_assign kwargs ∅).2
                 (construct Bar.BaseBarOptions_init kwargs)
  ∧ fails_at_super (Bar.BarOptions_assign kwargs ∅).2
                   (construct Bar.BarOptions_init kwargs)
  ∧ fails_at_super (BoxPlot.BoxPlotOptions_assign kwargs ∅).2
                   (construct BoxPlot.BoxPlotOptions_init kwargs)
  ∧ fails_at_super (read_attributes Bar.BaseBarOptions_untrimmed_table self).2
                   (Bar.BaseBarOptions_to_untrimmed_dict self).2
  ∧ construct Bar.BaseBarOptions_init [] = Raise TypeError
  ∧ construct Bar.BarOptions_init [] = Raise TypeError
  ∧ construct BoxPlot.BoxPlotOptions_init [] = Raise TypeError.
Proof.
  split_and!.
  - unfold Bar.BaseBarOptions_init. rewrite construct_then_super_of_instance.
    apply fails_at_super_intro.
  - unfold Bar.BarOptions_init. rewrite construct_then_super_of_instance.
    apply fails_at_super_intro.
  - unfold BoxPlot.BoxPlotOptions_init.
    rewrite construct_then_super_of_instance. apply fails_at_super_intro.
  - unfold Bar.BaseBarOptions_to_untrimmed_dict.
    rewrite serializer_super_of_instance. apply fails_at_super_intro.
  - vm_compute. reflexivity.
  - vm_compute. reflexivity.
  - vm_compute. reflexivity.
Qed.

(** A dash style that is not supported stops the constructor of the box
    plot at the first assignment: the error is the setter's, and
    [super(self)] is not reached. *)
Lemma boxplot_unsupported_dash_style_raises (s : string) :
  s ≠ "" → s ∉ SUPPORTED_DASH_STYLE_VALUES →
  construct BoxPlot.BoxPlotOptions_init [("box_dash_style", VStr s)]
  = Raise HighchartsValueError.
Proof.
  intros Hs Hnot. unfold BoxPlot.BoxPlotOptions_init.
  rewrite construct_then_super_of_instance.
  unfold BoxPlot.BoxPlotOptions_assign. rewrite bind_run, init_private_run.
  unfold BoxPlot.BoxPlotOptions_setters. cbn [assign_from_kwargs].
  rewrite bind_run.
  change (dict_pop "box_dash_style" [("box_dash_style", VStr s)]).1
    with (VStr s).
  unfold BoxPlot.box_dash_style_set.
  rewrite dash_style_setter_run by assumption.
  rewrite bool_decide_eq_false_2 by assumption. reflexivity.
Qed.

(** The classes of [bar.py] whose [__init__] ends in [super().__init__]
    reach one of the constructors above and do not construct either. *)
Lemma bar_subclasses_never_construct (kwargs : dict) :
  is_Ok (construct Bar.WaterfallOptions_init kwargs) = false
  ∧ is_Ok (construct Bar.WindBarbOptions_init kwargs) = false
  ∧ is_Ok (construct Bar.XRangeOptions_init kwargs) = false.
Proof.
  unfold construct, Bar.WaterfallOptions_init, Bar.WindBarbOptions_init,
    Bar.XRangeOptions_init, Bar.BarOptions_init, Bar.BaseBarOptions_init.
  split_and!.
  all: rewrite bind_run, init_private_run.
  all: rewrite bind_run;
    destruct (assign_from_kwargs _ kwargs _) as [s1 [rest|e1]]; [|reflexivity].
  all: rewrite bind_run.
  all: first [ destruct (Bar.BarOptions_assign _ _) as [s2 [left|e2]]
             | destruct (Bar.BaseBarOptions_assign _ _) as [s2 [left|e2]] ];
    reflexivity.
Qed.

(** C7 (the code departs from this claim): a bar-family node built from
    [{"pointPadding": 0.1, "borderWidth": None, "colorByPoint": False}]
    should serialize to [{"pointPadding": 0.1, "colorByPoint": False}].
    Every own attribute validates, and then the constructor raises
    [TypeError] at [super(self)]: no node is built, for [BaseBarOptions]
    and for [BarOptions] alike, from the wire mapping as from the same
    initializers given as keyword arguments, so nothing is serialized. *)
Theorem bar_scenario_raises_TypeError :
  from_dict Bar.BaseBarOptions_get_kwargs_from_dict Bar.BaseBarOptions_init
            bar_scenario = Raise TypeError
  ∧ from_dict Bar.BarOptions_get_kwargs_from_dict Bar.BarOptions_init
              bar_scenario = Raise TypeError
  ∧ construct Bar.BaseBarOptions_init
       [("point_padding", VFloat 0x1.999999999999ap-4%float);
        ("border_width", VNone); ("color_by_point", VBool false)]
    = Raise TypeError
  ∧ (self ← from_dict Bar.BaseBarOptions_get_kwargs_from_dict
                      Bar.BaseBarOptions_init bar_scenario;
     to_dict Bar.BaseBarOptions_to_untrimmed_dict self) = Raise TypeError.
Proof. split_and!; vm_compute; reflexivity. Qed.

(** The own assignments of the scenario do pass: the instance that
    [__init__] leaves behind when it raises holds the three values, and
    serializing that instance raises as well. *)
Lemma bar_scenario_assignments_pass :
  let self :=
    (Bar.BaseBarOptions_init
       (Bar.BaseBarOptions_get_kwargs_from_dict bar_scenario) ∅).1 in
  self !! "_point_padding" = Some (VFloat 0x1.999999999999ap-4%float)
  ∧ self !! "_border_width" = Some VNone
  ∧ self !! "_color_by_point" = Some (VBool false)
  ∧ to_dict Bar.BaseBarOptions_to_untrimmed_dict self = Raise TypeError.
Proof. split_and!; vm_compute; reflexivity. Qed.

(** C5 (the code departs from this claim): a boolean attribute set to
    [False] should come out of serialization as an emitted key.  The
    setter of [BaseBarOptions.color_by_point] does store [False], but no
    bar is ever serialized: the constructor given [color_by_point = False]
    raises [TypeError], and on any instance on which [False] was stored
    [to_dict] raises instead of returning a mapping. *)
Theorem stored_False_of_a_bar_is_never_serialized self :
  construct Bar.BaseBarOptions_init [("color_by_point", VBool false)]
  = Raise TypeError
  ∧ (Bar.color_by_point_set (VBool false) self).1 !! "_color_by_point"
    = Some (VBool false)
  ∧ is_Ok (to_dict Bar.BaseBarOptions_to_untrimmed_dict
             (Bar.color_by_point_set (VBool false) self).1) = false.
Proof.
  split; [vm_compute; reflexivity|].
  unfold Bar.color_by_point_set. rewrite bool_setter_run.
  cbn [fst is_None truthy]. split; [apply lookup_insert_eq|].
  unfold to_dict, Bar.BaseBarOptions_to_untrimmed_dict.
  rewrite serializer_super_of_instance.
  destruct (read_attributes _ _).2; reflexivity.
Qed.

(** ** Wire keys and the round trip *)


(** C8 (the code departs from this claim): every attribute should be
    emitted under the camelCase wire key that the extractor of its class
    recognizes.  [VennOptions._to_untrimmed_dict] emits its own attributes
    under their snake_case names: a node built with [animation_limit = 5]
    serializes to [{"animation_limit": 5}], while
    [VennOptions._get_kwargs_from_dict] reads that attribute from
    ["animationLimit"].  Six attributes of [VennOptions] and two of
    [NumericAxis] are emitted under a key other than the recognized one;
    the literals of [BaseBarOptions], [BarOptions] and [BoxPlotOptions]
    have none. *)
Theorem venn_serializer_emits_snake_case_keys :
  (node ← construct Venn.VennOptions_init [("animation_limit", VInt 5)];
   to_dict Venn.VennOptions_to_untrimmed_dict node)
  = Ok [("animation_limit", VInt 5)]
  ∧ emitted_key Venn.VennOptions_untrimmed_table "animation_limit"
    = Some "animation_limit"
  ∧ recognized_key Venn.VennOptions_kwargs_table "animation_limit"
    = Some "animationLimit"
  ∧ mismatched Venn.VennOptions_untrimmed_table Venn.VennOptions_kwargs_table
    = ["animation_limit"; "color_axis"; "color_index"; "color_key";
       "relative_x_value"; "border_dash_style"]
  ∧ mismatched Numeric.NumericAxis_to_dict_table
               Numeric.NumericAxis_from_dict_table
    = ["class_name"; "plot_bands"]
  ∧ mismatched Bar.BaseBarOptions_untrimmed_table Bar.BaseBarOptions_kwargs_table
    = []
  ∧ mismatched Bar.BarOptions_untrimmed_table Bar.BarOptions_kwargs_table = []
  ∧ mismatched BoxPlot.BoxPlotOptions_untrimmed_table
               BoxPlot.BoxPlotOptions_kwargs_table = [].
Proof. split_and!; vm_compute; reflexivity. Qed.

End Construction.

(** C2 (as amended): the misspelled key ['plotPands'] is emitted by the
    serializer of the numeric axis, for [plot_bands], an attribute that
    [NumericAxis] declares itself and that [NumericAxis.from_dict] reads
    from ['plotBands'].  Whenever [NumericAxis.to_dict] evaluates its
    literal, the untrimmed mapping holds the value of [plot_bands] under
    ['plotPands'] and has no key ['plotBands'].  No other serializer
    literal of the four modules holds that key; the one of
    [BoxPlotOptions] emits no key for [plot_bands] at all, and the
    serializer itself raises at [super(self)] without returning a
    mapping. *)
Theorem plotPands_is_emitted_by_the_numeric_axis self :
  emitters "plotPands" = ["NumericAxis.to_dict"]
  ∧ emitted_key Numeric.NumericAxis_to_dict_table "plot_bands" = Some "plotPands"
  ∧ recognized_key Numeric.NumericAxis_from_dict_table "plot_bands"
    = Some "plotBands"
  ∧ "plot_bands" ∈ Numeric.NumericAxis_own
  ∧ match (Numeric.NumericAxis_untrimmed self).2 with
    | Ok untrimmed =>
        dict_get "plotPands" untrimmed = self !! "_plot_bands"
        ∧ dict_get "plotBands" untrimmed = None
    | Raise e => e = AttributeError
    end
  ∧ emitted_key BoxPlot.BoxPlotOptions_untrimmed_table "plot_bands" = None
  ∧ is_Ok (BoxPlot.BoxPlotOptions_to_untrimmed_dict self).2 = false.
Proof.
  split_and!.
  - vm_compute. reflexivity.
  - vm_compute. reflexivity.
  - vm_compute. reflexivity.
  - by_evaluation.
  - unfold Numeric.NumericAxis_untrimmed. rewrite read_attributes_run.
    cbn [snd]. destruct (forallb _ _) eqn:Hall; [|reflexivity].
    pose proof (literal_value_numeric_axis
                  (λ attr, default VNone (self !! ("_" +:+ attr))))
      as (Hpands & Hbands & _).
    split; [|exact Hbands]. rewrite Hpands.
    rewrite forallb_forall in Hall.
    assert (Hset : is_Some (self !! "_plot_bands")).
    { apply (bool_decide_eq_true _),
        (Hall ("plotPands", "plot_bands")), list_elem_of_In.
      by_evaluation. }
    destruct Hset as [v Hv].
    change ("_" +:+ "plot_bands") with "_plot_bands". rewrite Hv. reflexivity.
  - vm_compute. reflexivity.
  - unfold BoxPlot.BoxPlotOptions_to_untrimmed_dict.
    rewrite serializer_super_of_instance.
    destruct (read_attributes _ _).2; reflexivity.
Qed.

(** ** Concrete runs *)

(** ["#ff0000"] on the numeric axis: the setter raises and the instance
    keeps what it had. *)
Lemma red_is_rejected_by_the_numeric_axis :
  @Numeric.alternate_grid_color_set strict (VStr "#ff0000")
     {["_alternate_grid_color" := VNone]}
  = ({["_alternate_grid_color" := VNone]}, Raise HighchartsValueError).
Proof.
  apply (@plain_string_color_is_rejected strict "#ff0000");
    [discriminate|reflexivity|reflexivity].
Defined.



(** A box plot given a dash style that is not supported: the
    constructor raises the setter's [HighchartsValueError], which is not
    a [TypeError]; [super(self)] is never reached. *)
Lemma boxplot_rejects_a_dash_style_before_super :
  construct (@BoxPlot.BoxPlotOptions_init strict)
            [("box_dash_style", VStr "NotARealStyle")]
  = Raise HighchartsValueError
  ∧ is_TypeError HighchartsValueError = false.
Proof. split; vm_compute; reflexivity. Qed.

(** A numeric axis that holds a plot band serializes it under
    ['plotPands'] and has no key ['plotBands']; the literal of the box
    plot has neither key, and its serializer raises. *)
Lemma misspelled_key_is_not_in_the_boxplot_serializer :
  (axis ← construct (@Numeric.NumericAxis_init strict) [];
   wire ← Numeric.NumericAxis_to_dict (<["_plot_bands" := one_plot_band]> axis);
   Ok (dict_get "plotPands" wire, dict_get "plotBands" wire))
  = Ok (Some (VList [VDict [("from", VInt 1); ("to", VInt 2)]]), None)
  ∧ emitters "plotPands" = ["NumericAxis.to_dict"]
  ∧ bool_decide ("plotPands" ∈ BoxPlot.BoxPlotOptions_untrimmed_table.*1)
    = false
  ∧ bool_decide ("plotBands" ∈ BoxPlot.BoxPlotOptions_untrimmed_table.*1)
    = false
  ∧ (BoxPlot.BoxPlotOptions_to_untrimmed_dict
       (@BoxPlot.BoxPlotOptions_init strict [] ∅).1).2 = Raise TypeError.
Proof. split_and!; vm_compute; reflexivity. Qed.

(** * Further properties of the four modules *)

(** ** Dictionaries, continued *)

Lemma dict_keys_set_new (k : string) (v : value) : ∀ d,
  k ∉ dict_keys d → dict_keys (dict_set k v d) = (dict_keys d ++ [k])%list.
Proof.
  unfold dict_keys. induction d as [|[k0 x] d IH]; intros Hnot; [reflexivity|].
  cbn [fmap list_fmap fst] in Hnot. apply not_elem_of_cons in Hnot as [Hne Hnot].
  cbn [dict_set]. destruct (String.eqb k0 k) eqn:Heq.
  - apply String.eqb_eq in Heq. congruence.
  - cbn [fmap list_fmap fst app]. f_equal. apply IH, Hnot.
Qed.

Lemma dict_get_not_key (k : string) : ∀ d,
  k ∉ dict_keys d → dict_get k d = None.
Proof.
  unfold dict_keys. induction d as [|[k0 x] d IH]; intros Hnot; [reflexivity|].
  cbn [fmap list_fmap fst] in Hnot. apply not_elem_of_cons in Hnot as [Hne Hnot].
  cbn [dict_get]. destruct (String.eqb k0 k) eqn:Heq.
  - apply String.eqb_eq in Heq. congruence.
  - apply IH, Hnot.
Qed.

(** ** Serializer literals *)

Lemma literal_value_other (look : string → value) (key : string) :
  ∀ table acc, key ∉ table.*1 →
  dict_get key (literal_value look table acc) = dict_get key acc.
Proof.
  induction table as [|[k0 a0] table IH]; intros acc Hnot; [reflexivity|].
  cbn [fmap list_fmap fst] in Hnot. apply not_elem_of_cons in Hnot as [Hne Hnot].
  cbn [literal_value foldl]. change (foldl _ ?a table) with (literal_value look table a).
  rewrite IH by assumption. cbn [fst snd]. rewrite dict_get_set.
  destruct (String.eqb k0 key) eqn:Heq; [|reflexivity].
  apply String.eqb_eq in Heq. congruence.
Qed.

Lemma literal_value_entry (look : string → value) (key attr : string) :
  ∀ table acc, NoDup table.*1 → (key, attr) ∈ table →
  dict_get key (literal_value look table acc) = Some (look attr).
Proof.
  induction table as [|[k0 a0] table IH]; intros acc Hkeys Hin;
    [apply elem_of_nil in Hin; destruct Hin|].
  cbn [fmap list_fmap fst] in Hkeys. apply NoDup_cons in Hkeys as [Hk0 Hkeys].
  cbn [literal_value foldl]. change (foldl _ ?a table) with (literal_value look table a).
  apply elem_of_cons in Hin as [[= -> ->]|Hin].
  - rewrite literal_value_other by assumption. cbn [fst snd].
    rewrite dict_get_set, String.eqb_refl. reflexivity.
  - apply IH; assumption.
Qed.

Lemma literal_value_keys (look : string → value) :
  ∀ table acc, NoDup (dict_keys acc ++ table.*1)%list →
  dict_keys (literal_value look table acc) = (dict_keys acc ++ table.*1)%list.
Proof.
  induction table as [|[k0 a0] table IH]; intros acc Hnodup.
  - cbn. rewrite app_nil_r. reflexivity.
  - cbn [literal_value foldl]. change (foldl _ ?a table) with (literal_value look table a).
    cbn [fmap list_fmap fst snd] in *.
    assert (Hnew : k0 ∉ dict_keys acc).
    { apply NoDup_app in Hnodup as (_ & Hdisj & _). intros Hin.
      apply (Hdisj _ Hin). left. }
    rewrite IH; rewrite dict_keys_set_new by assumption.
    + rewrite <- app_assoc. reflexivity.
    + rewrite <- app_assoc. exact Hnodup.
Qed.

Lemma Ok_inj {A} (a b : A) : Ok a = Ok b → a = b.
Proof. intros [= ->]. reflexivity. Qed.

(** ** Key extraction, continued *)

Lemma pop_recognized_into_keys : ∀ table as_dict kwargs,
  NoDup (dict_keys kwargs ++ table.*1)%list →
  dict_keys (pop_recognized_into table as_dict kwargs).1
  = (dict_keys kwargs ++ table.*1)%list.
Proof.
  induction table as [|[attr0 key0] table IH]; intros as_dict kwargs Hnodup.
  - cbn. rewrite app_nil_r. reflexivity.
  - cbn [pop_recognized_into]. cbn [fmap list_fmap fst snd] in *.
    assert (Hnew : attr0 ∉ dict_keys kwargs).
    { apply NoDup_app in Hnodup as (_ & Hdisj & _). intros Hin.
      apply (Hdisj _ Hin). left. }
    rewrite IH; rewrite dict_keys_set_new by assumption.
    + rewrite <- app_assoc. reflexivity.
    + rewrite <- app_assoc. exact Hnodup.
Qed.

Lemma pop_recognized_extracts (table : list (string * string)) (as_dict : dict) :
  NoDup table.*1 → NoDup table.*2 →
  extracts table as_dict (pop_recognized table as_dict).1.
Proof.
  intros Hattrs Hkeys. split.
  - unfold pop_recognized. rewrite pop_recognized_into_keys; [reflexivity|].
    exact Hattrs.
  - apply Forall_forall. intros [attr key] Hin.
    apply pop_recognized_into_entry; assumption.
Qed.

Lemma dict_get_remove_all (k : string) : ∀ (keys : list string) (d : dict),
  dict_get k (foldl (λ left key, dict_remove key left) d keys)
  = if bool_decide (k ∈ keys) then None else dict_get k d.
Proof.
  induction keys as [|key keys IH]; intros d; [reflexivity|].
  cbn [foldl]. rewrite IH, dict_get_remove.
  destruct (String.eqb key k) eqn:Heq.
  - apply String.eqb_eq in Heq as ->.
    rewrite (bool_decide_eq_true_2 (k ∈ k :: keys)) by left.
    destruct (bool_decide (k ∈ keys)); reflexivity.
  - apply String.eqb_neq in Heq.
    destruct (bool_decide (k ∈ keys)) eqn:Hin.
    + apply bool_decide_eq_true in Hin.
      rewrite bool_decide_eq_true_2 by (right; exact Hin). reflexivity.
    + apply bool_decide_eq_false in Hin.
      rewrite bool_decide_eq_false_2; [reflexivity|].
      intros [?|?]%elem_of_cons; congruence.
Qed.

Lemma pop_recognized_into_left : ∀ table as_dict kwargs,
  (pop_recognized_into table as_dict kwargs).2
  = foldl (λ left key, dict_remove key left) as_dict table.*2.
Proof.
  induction table as [|[attr0 key0] table IH]; intros as_dict kwargs;
    [reflexivity|].
  cbn [pop_recognized_into]. rewrite IH. reflexivity.
Qed.

(** What [from_dict] and the keyword extractors leave of the mapping
    they are given: every [as_dict.pop] removes its key from the caller's
    mapping, so afterwards none of the wire keys of the table is left, and
    every other entry is as it was. *)
Theorem extraction_consumes_the_recognized_keys
    (table : list (string * string)) (as_dict : dict) (k : string) :
  dict_get k (pop_recognized table as_dict).2
  = if bool_decide (k ∈ table.*2) then None else dict_get k as_dict.
Proof.
  unfold pop_recognized. rewrite pop_recognized_into_left.
  apply dict_get_remove_all.
Qed.

(** The keyword dictionary of each extractor of the four modules holds
    exactly the attributes of its literal, in the literal's order, each
    with the value found under its wire key and null when the mapping has
    no such key; keys the literal does not name have no effect on it. *)
Theorem extractors_fill_every_attribute (as_dict : dict) :
  extracts Numeric.NumericAxis_from_dict_table as_dict
           (pop_recognized Numeric.NumericAxis_from_dict_table as_dict).1
  ∧ extracts Bar.BaseBarOptions_kwargs_table as_dict
             (Bar.BaseBarOptions_get_kwargs_from_dict as_dict)
  ∧ extracts Bar.BarOptions_kwargs_table as_dict
             (Bar.BarOptions_get_kwargs_from_dict as_dict)
  ∧ extracts BoxPlot.BoxPlotOptions_kwargs_table as_dict
             (BoxPlot.BoxPlotOptions_get_kwargs_from_dict as_dict)
  ∧ extracts Venn.VennOptions_kwargs_table as_dict
             (Venn.VennOptions_get_kwargs_from_dict as_dict).
Proof.
  split_and!; apply pop_recognized_extracts; by_evaluation.
Qed.

(** [BoxPlotOptions._get_kwargs_from_dict] has no entry for [colors]:
    whatever the mapping holds under ['colors'], the keyword dictionary of
    a box plot has no such key, while the extractors of [BaseBarOptions]
    and [BarOptions] pass the value on.  It is the only attribute of the
    bar literal that the box-plot literal leaves out. *)
Theorem boxplot_extractor_drops_colors (as_dict : dict) :
  dict_get "colors" (BoxPlot.BoxPlotOptions_get_kwargs_from_dict as_dict) = None
  ∧ dict_get "colors" (Bar.BaseBarOptions_get_kwargs_from_dict as_dict)
    = Some (default VNone (dict_get "colors" as_dict))
  ∧ dict_get "colors" (Bar.BarOptions_get_kwargs_from_dict as_dict)
    = Some (default VNone (dict_get "colors" as_dict))
  ∧ filter (λ attr, attr ∉ BoxPlot.BoxPlotOptions_kwargs_table.*1)
           Bar.BarOptions_kwargs_table.*1 = ["colors"].
Proof.
  split_and!.
  - apply dict_get_not_key.
    unfold BoxPlot.BoxPlotOptions_get_kwargs_from_dict, pop_recognized.
    rewrite pop_recognized_into_keys by by_evaluation. by_evaluation.
  - apply pop_recognized_into_entry; by_evaluation.
  - apply pop_recognized_into_entry; by_evaluation.
  - vm_compute. reflexivity.
Qed.

(** ** The untrimmed mapping of the numeric axis *)

(** [NumericAxis.to_dict], before trimming: reading the literal never
    changes the instance; it fails, with [AttributeError], exactly when an
    attribute of the literal was never assigned; otherwise the mapping
    has the keys of the literal, in order, each bound to the attribute of
    its entry. *)
Theorem numeric_axis_untrimmed_mapping `{Collaborators} self :
  (Numeric.NumericAxis_untrimmed self).1 = self
  ∧ match (Numeric.NumericAxis_untrimmed self).2 with
    | Ok untrimmed =>
        dict_keys untrimmed = Numeric.NumericAxis_to_dict_table.*1
        ∧ Forall (λ entry, dict_get entry.1 untrimmed
                           = self !! ("_" +:+ entry.2)
                           ∧ is_Some (self !! ("_" +:+ entry.2)))
                 Numeric.NumericAxis_to_dict_table
    | Raise e =>
        e = AttributeError
        ∧ Exists (λ entry, self !! ("_" +:+ entry.2) = None)
                 Numeric.NumericAxis_to_dict_table
    end.
Proof.
  unfold Numeric.NumericAxis_untrimmed. rewrite read_attributes_run.
  cbn [fst snd]. split; [reflexivity|].
  destruct (forallb _ _) eqn:Hall.
  - split.
    + rewrite literal_value_keys by by_evaluation. reflexivity.
    + rewrite forallb_forall in Hall. apply Forall_forall.
      intros [key attr] Hin. cbn [fst snd].
      rewrite (literal_value_entry _ key attr); [|by_evaluation|exact Hin].
      apply list_elem_of_In, Hall, bool_decide_eq_true in Hin.
      cbn [fst snd] in Hin. destruct Hin as [v ->]. eauto.
  - split; [reflexivity|].
    apply Exists_exists.
    assert (Hex : ∃ entry, In entry Numeric.NumericAxis_to_dict_table
                           ∧ bool_decide (is_Some (self !! ("_" +:+ entry.2)))
                             = false).
    { revert Hall. generalize Numeric.NumericAxis_to_dict_table.
      induction l as [|entry l IH]; [discriminate|].
      cbn [forallb]. intros [Hhead|Htail]%andb_false_iff.
      - exists entry. split; [left; reflexivity|exact Hhead].
      - destruct (IH Htail) as (entry' & ? & ?). exists entry'.
        split; [right|]; assumption. }
    destruct Hex as (entry & Hin & Hnone). exists entry.
    split; [apply list_elem_of_In, Hin|].
    apply bool_decide_eq_false in Hnone.
    destruct (self !! ("_" +:+ entry.2)); [|reflexivity].
    exfalso. apply Hnone. eauto.
Qed.

(** The keys of the numeric axis that survive the round trip: for an
    attribute that [to_dict] emits under the key [from_dict] reads it
    from, the keyword argument extracted from the untrimmed mapping is the
    value the instance holds. *)
Theorem numeric_axis_matching_key_round_trips
    `{Collaborators} self (untrimmed : dict) (key attr : string) :
  (Numeric.NumericAxis_untrimmed self).2 = Ok untrimmed →
  (key, attr) ∈ Numeric.NumericAxis_to_dict_table →
  (attr, key) ∈ Numeric.NumericAxis_from_dict_table →
  dict_get attr (pop_recognized Numeric.NumericAxis_from_dict_table untrimmed).1
  = self !! ("_" +:+ attr).
Proof.
  intros Hrun Hemit Hread.
  unfold Numeric.NumericAxis_untrimmed in Hrun.
  rewrite read_attributes_run in Hrun. cbn [snd] in Hrun.
  destruct (forallb _ _) eqn:Hall; [|discriminate].
  apply Ok_inj in Hrun. subst untrimmed.
  destruct NumericAxis_from_dict_table_NoDup as [Hattrs Hkeys].
  unfold pop_recognized.
  rewrite (pop_recognized_into_entry attr key) by assumption.
  rewrite (literal_value_entry _ key attr); [|by_evaluation|exact Hemit].
  rewrite forallb_forall in Hall.
  apply list_elem_of_In, Hall, bool_decide_eq_true in Hemit.
  cbn [snd] in Hemit. destruct Hemit as [v ->]. reflexivity.
Qed.

(** ** Merging the parent mapping *)

Lemma merge_parent_other (k : string) : ∀ (parent untrimmed : dict),
  k ∉ dict_keys parent →
  dict_get k (merge_parent untrimmed parent) = dict_get k untrimmed.
Proof.
  unfold merge_parent, dict_keys.
  induction parent as [|[k0 x] parent IH]; intros untrimmed Hnot; [reflexivity|].
  cbn [fmap list_fmap fst] in Hnot. apply not_elem_of_cons in Hnot as [Hne Hnot].
  cbn [foldl fst snd]. rewrite IH by assumption. rewrite dict_get_set.
  destruct (String.eqb k0 k) eqn:Heq; [|reflexivity].
  apply String.eqb_eq in Heq. congruence.
Qed.

(** The loop at the end of every [_to_untrimmed_dict]: a key of the
    parent mapping overrides the child's entry of the same name, with the
    last value the parent mapping holds for it; every other entry of the
    child's literal is kept. *)
Theorem merge_parent_overrides_the_child (untrimmed parent : dict) (k : string) :
  dict_get k (merge_parent untrimmed parent)
  = match dict_get k (reverse parent) with
    | Some v => Some v
    | None => dict_get k untrimmed
    end.
Proof.
  revert untrimmed. induction parent as [|[k0 x] parent IH] using rev_ind;
    intros untrimmed; [reflexivity|].
  unfold merge_parent in *. rewrite foldl_app. cbn [foldl fst snd].
  rewrite reverse_app. cbn [reverse rev_append app dict_get].
  rewrite dict_get_set. destruct (String.eqb k0 k); [reflexivity|]. apply IH.
Qed.

(** ** Every setter assigns one attribute or nothing *)

Ltac atomic_solve :=
  repeat first
    [ match goal with
      | |- context [if ?b then _ else _] => destruct b
      | |- context [match ?r with Ok _ => _ | Raise _ => _ end] =>
          lazymatch r with Ok _ => fail | Raise _ => fail | _ => destruct r end
      end
    | progress cbv beta iota delta [mbind M_bind lift] ];
  first [ left; eexists; intros self; reflexivity
        | right; eexists; intros self; reflexivity ].

(** Membership in a list that is written out. *)
Ltac in_list :=
  repeat first [apply list_elem_of_here | apply list_elem_of_further].

Section Atomic.
Context `{Collaborators}.

Lemma bool_setter_atomic p : atomic_setter p (bool_setter p).
Proof. intros v. unfold bool_setter. atomic_solve. Qed.

Lemma numeric_setter_atomic p m : atomic_setter p (numeric_setter p m).
Proof. intros v. unfold numeric_setter. atomic_solve. Qed.

Lemma integer_setter_atomic p : atomic_setter p (integer_setter p).
Proof. intros v. unfold integer_setter. atomic_solve. Qed.

Lemma string_setter_atomic p : atomic_setter p (string_setter p).
Proof. intros v. unfold string_setter. atomic_solve. Qed.

Lemma color_setter_atomic p : atomic_setter p (color_setter p).
Proof. intros v. unfold color_setter. atomic_solve. Qed.

Lemma node_setter_atomic p cls f : atomic_setter p (node_setter p cls f).
Proof. intros v. unfold node_setter. atomic_solve. Qed.

Lemma inherited_set_atomic attr :
  atomic_setter ("_" +:+ attr) (inherited_set attr).
Proof. intros v. unfold inherited_set. atomic_solve. Qed.

Lemma dash_style_setter_atomic attr :
  atomic_setter ("_" +:+ attr) (BoxPlot.dash_style_setter attr).
Proof. intros v. unfold BoxPlot.dash_style_setter. atomic_solve. Qed.

Lemma alternate_grid_color_atomic :
  atomic_setter "_alternate_grid_color" Numeric.alternate_grid_color_set.
Proof. intros v. unfold Numeric.alternate_grid_color_set. atomic_solve. Qed.

Lemma categories_atomic : atomic_setter "_categories" Numeric.categories_set.
Proof. intros v. unfold Numeric.categories_set. atomic_solve. Qed.

Lemma colors_atomic : atomic_setter "_colors" Bar.colors_set.
Proof. intros v. unfold Bar.colors_set. atomic_solve. Qed.

Lemma point_range_atomic : atomic_setter "_point_range" Bar.point_range_set.
Proof. intros v. unfold Bar.point_range_set, numeric_setter. atomic_solve. Qed.

Lemma whisker_length_atomic :
  atomic_setter "_whisker_length" BoxPlot.whisker_length_set.
Proof. intros v. unfold BoxPlot.whisker_length_set. atomic_solve. Qed.

Lemma animation_limit_atomic :
  atomic_setter "_animation_limit" Venn.animation_limit_set.
Proof.
  intros v. unfold Venn.animation_limit_set, numeric_setter. atomic_solve.
Qed.

Lemma color_axis_atomic : atomic_setter "_color_axis" Venn.color_axis_set.
Proof.
  intros v. unfold Venn.color_axis_set.
  destruct v as [|[]| | | | | |]; atomic_solve.
Qed.

Lemma all_setters_atomic :
  Forall (λ entry, atomic_setter ("_" +:+ entry.1) entry.2) all_setters.
Proof.
  unfold all_setters, Numeric.NumericAxis_setters,
    Bar.BaseBarOptions_setters, Bar.BarOptions_setters,
    BoxPlot.BoxPlotOptions_setters, Venn.VennOptions_setters.
  cbn [app].
  repeat (apply Forall_cons; split;
          [first [ apply bool_setter_atomic | apply numeric_setter_atomic
                 | apply integer_setter_atomic | apply string_setter_atomic
                 | apply color_setter_atomic | apply node_setter_atomic
                 | apply dash_style_setter_atomic
                 | apply alternate_grid_color_atomic | apply categories_atomic
                 | apply colors_atomic | apply point_range_atomic
                 | apply whisker_length_atomic | apply animation_limit_atomic
                 | apply color_axis_atomic ]|]).
  apply Forall_nil_2.
Qed.

(** Every property setter of the four modules either assigns its own
    private attribute and nothing else, or raises and leaves the instance
    exactly as it was, whatever the instance held; the value alone decides
    which, so that a failed assignment never leaves a half-written
    instance behind. *)
Theorem every_setter_is_atomic (attr : string) (setter : value → M unit) :
  (attr, setter) ∈ all_setters → atomic_setter ("_" +:+ attr) setter.
Proof.
  intros Hin. pose proof all_setters_atomic as Hall.
  rewrite Forall_forall in Hall. apply (Hall (attr, setter) Hin).
Qed.

(** ** Construction from keyword arguments *)

Lemma underscore_inj (a b : string) : "_" +:+ a = "_" +:+ b → a = b.
Proof. intros Heq. injection Heq as Heq. exact Heq. Qed.

(** The assignments of an [__init__] touch no attribute but those of
    their setters, whether they all pass or one of them raises. *)
Lemma assign_from_kwargs_frame (setters : list (string * (value → M unit))) :
  Forall (λ entry, atomic_setter ("_" +:+ entry.1) entry.2) setters →
  ∀ kwargs self (p : string), p ∉ String.app "_" <$> setters.*1 →
  (assign_from_kwargs setters kwargs self).1 !! p = self !! p.
Proof.
  induction 1 as [|[n s] setters Hatomic _ IH]; intros kwargs self p Hnot;
    [reflexivity|].
  cbn [fmap list_fmap fst] in Hnot. apply not_elem_of_cons in Hnot as [Hne Hnot].
  cbn [assign_from_kwargs]. rewrite bind_run. cbn [fst snd] in Hatomic.
  destruct (Hatomic (dict_pop n kwargs).1) as [[x Hx]|[e He]].
  - rewrite Hx. rewrite IH by assumption. apply lookup_insert_ne. congruence.
  - rewrite He. reflexivity.
Qed.

(** When they all pass, every attribute holds what its setter stores
    for the value of its keyword, null when the keyword is absent. *)
Lemma assign_from_kwargs_stored (setters : list (string * (value → M unit))) :
  Forall (λ entry, atomic_setter ("_" +:+ entry.1) entry.2) setters →
  NoDup setters.*1 →
  ∀ kwargs self self' rest (n : string) (s : value → M unit),
    (n, s) ∈ setters →
    assign_from_kwargs setters kwargs self = (self', Ok rest) →
    self' !! ("_" +:+ n)
    = (s (default VNone (dict_get n kwargs)) ∅).1 !! ("_" +:+ n).
Proof.
  induction 1 as [|[n0 s0] setters Hatomic Hrest IH];
    intros Hnodup kwargs self self' rest n s Hin Hrun;
    [apply elem_of_nil in Hin; destruct Hin|].
  cbn [fmap list_fmap fst] in Hnodup. apply NoDup_cons in Hnodup as [Hn0 Hnodup].
  cbn [assign_from_kwargs] in Hrun. rewrite bind_run in Hrun.
  cbn [fst snd] in Hatomic. cbn [dict_pop fst snd] in Hrun.
  destruct (Hatomic (default VNone (dict_get n0 kwargs))) as [[x Hx]|[e He]];
    [|rewrite He in Hrun; discriminate].
  rewrite Hx in Hrun. apply elem_of_cons in Hin as [[= -> ->]|Hin].
  - rewrite Hx. cbn [fst].
    replace self' with
      (assign_from_kwargs setters (dict_remove n0 kwargs)
         (<["_" +:+ n0 := x]> self)).1 by (rewrite Hrun; reflexivity).
    rewrite assign_from_kwargs_frame.
    + rewrite !lookup_insert_eq. reflexivity.
    + exact Hrest.
    + intros (n' & Heq & Hin')%list_elem_of_fmap.
      apply underscore_inj in Heq as <-. contradiction.
  - rewrite (IH Hnodup _ _ _ _ n s Hin Hrun). rewrite dict_get_remove.
    destruct (String.eqb n0 n) eqn:Heq; [|reflexivity].
    apply String.eqb_eq in Heq as ->. exfalso. apply Hn0.
    apply (list_elem_of_fmap_2 fst _ _ Hin).
Qed.

(** The parent constructor touches none of the attributes the child
    declares itself. *)
Lemma parent_init_frame (table : list (string * string)) (own : list string)
    (kwargs : dict) self (n : string) :
  n ∈ own →
  (parent_init (inherited table own) kwargs self).1 !! ("_" +:+ n)
  = self !! ("_" +:+ n).
Proof.
  intros Hown. unfold parent_init. rewrite bind_run.
  transitivity ((assign_from_kwargs
                   ((λ entry, (entry.1, inherited_set entry.1))
                      <$> inherited table own) kwargs self).1 !! ("_" +:+ n)).
  { destruct (assign_from_kwargs _ kwargs self) as [s1 [r|e]]; reflexivity. }
  apply assign_from_kwargs_frame.
  - apply Forall_fmap, Forall_forall. intros entry _.
    apply inherited_set_atomic.
  - intros (n' & Heq & Hin')%list_elem_of_fmap.
    apply underscore_inj in Heq as <-.
    apply list_elem_of_fmap in Hin' as ([n' s'] & -> & Hin').
    apply list_elem_of_fmap in Hin' as (entry & [= -> ->] & Hin').
    apply list_elem_of_filter in Hin' as [Hnot _]. contradiction.
Qed.

(** A constructor of the shape own assignments, then the parent's
    [__init__] on what is left of the keyword arguments. *)
Lemma constructed_holds_what_the_setters_stored
    (setters : list (string * (value → M unit)))
    (table : list (string * string)) (own : list string)
    (kwargs : dict) (fresh self : gmap string value)
    (n : string) (s : value → M unit) :
  Forall (λ entry, atomic_setter ("_" +:+ entry.1) entry.2) setters →
  NoDup setters.*1 → setters.*1 = own → (n, s) ∈ setters →
  (assign_from_kwargs setters kwargs ≫= parent_init (inherited table own)) fresh
  = (self, Ok tt) →
  self !! ("_" +:+ n)
  = (s (default VNone (dict_get n kwargs)) ∅).1 !! ("_" +:+ n).
Proof.
  intros Hatomic Hnodup Hown Hin Hrun. rewrite bind_run in Hrun.
  destruct (assign_from_kwargs setters kwargs fresh) as [s1 [rest|e]] eqn:Hassign;
    [|discriminate].
  rewrite <- (assign_from_kwargs_stored setters Hatomic Hnodup
                kwargs fresh s1 rest n s Hin Hassign).
  replace self with (parent_init (inherited table own) rest s1).1
    by (rewrite Hrun; reflexivity).
  apply parent_init_frame. rewrite <- Hown.
  apply (list_elem_of_fmap_2 fst _ _ Hin).
Qed.

Lemma construct_Ok (init : dict → M unit) (kwargs : dict) self :
  construct init kwargs = Ok self → init kwargs ∅ = (self, Ok tt).
Proof.
  unfold construct. destruct (init kwargs ∅) as [self' [[]|e]];
    [intros [= ->]; reflexivity|discriminate].
Qed.

Lemma NumericAxis_setters_atomic :
  Forall (λ entry, atomic_setter ("_" +:+ entry.1) entry.2)
         Numeric.NumericAxis_setters.
Proof.
  pose proof all_setters_atomic as Hall. unfold all_setters in Hall.
  apply Forall_app in Hall as [Hall _]. exact Hall.
Qed.

Lemma VennOptions_setters_atomic :
  Forall (λ entry, atomic_setter ("_" +:+ entry.1) entry.2)
         Venn.VennOptions_setters.
Proof.
  pose proof all_setters_atomic as Hall. unfold all_setters in Hall.
  repeat apply Forall_app in Hall as [_ Hall]. exact Hall.
Qed.

(** A numeric axis that was constructed holds, for each attribute it
    declares itself, exactly what the setter of that attribute stores for
    the keyword argument of the same name, null standing for a keyword
    that was not given: no assignment is skipped, none is overwritten by a
    later one or by the parent's constructor, and the order of the keyword
    arguments does not matter. *)
Theorem numeric_axis_holds_what_its_setters_stored
    (kwargs : dict) self (attr : string) (setter : value → M unit) :
  construct Numeric.NumericAxis_init kwargs = Ok self →
  (attr, setter) ∈ Numeric.NumericAxis_setters →
  self !! ("_" +:+ attr)
  = (setter (default VNone (dict_get attr kwargs)) ∅).1 !! ("_" +:+ attr).
Proof.
  intros Hrun%construct_Ok Hin. unfold Numeric.NumericAxis_init in Hrun.
  rewrite bind_run, init_private_run in Hrun.
  eapply constructed_holds_what_the_setters_stored;
    [apply NumericAxis_setters_atomic|by_evaluation|reflexivity|exact Hin
    |exact Hrun].
Qed.

(** The same for [VennOptions]; in particular the [False] that
    [__init__] first gives [_relative_x_value] never survives
    construction: the attribute ends up null when the keyword is absent. *)
Theorem venn_holds_what_its_setters_stored
    (kwargs : dict) self (attr : string) (setter : value → M unit) :
  construct Venn.VennOptions_init kwargs = Ok self →
  (attr, setter) ∈ Venn.VennOptions_setters →
  self !! ("_" +:+ attr)
  = (setter (default VNone (dict_get attr kwargs)) ∅).1 !! ("_" +:+ attr)
  ∧ (dict_get "relative_x_value" kwargs = None →
     self !! "_relative_x_value" = Some VNone).
Proof.
  intros Hrun%construct_Ok Hin. unfold Venn.VennOptions_init in Hrun.
  rewrite bind_run, init_private_run in Hrun.
  rewrite bind_run in Hrun. cbn [setattr] in Hrun.
  rewrite bind_run, init_private_run in Hrun.
  assert (Hall : ∀ n s, (n, s) ∈ Venn.VennOptions_setters →
            self !! ("_" +:+ n)
            = (s (default VNone (dict_get n kwargs)) ∅).1 !! ("_" +:+ n)).
  { intros n s Hns.
    eapply constructed_holds_what_the_setters_stored;
      [apply VennOptions_setters_atomic|by_evaluation|reflexivity|exact Hns
      |exact Hrun]. }
  split; [apply Hall, Hin|].
  intros Habsent.
  change "_relative_x_value" with ("_" +:+ "relative_x_value").
  rewrite (Hall "relative_x_value" Venn.relative_x_value_set)
    by (unfold Venn.VennOptions_setters; in_list).
  rewrite Habsent. reflexivity.
Qed.

End Atomic.

Section Further_setters.
Context `{Collaborators}.

(** ** The polymorphic color of the numeric axis, continued *)

(** The setter of [NumericAxis.alternate_grid_color] stores nothing it
    does not recognize: a truthy value that is neither a [Gradient] nor a
    [Pattern] and carries none of the markers the branches test (a
    number, a list, a mapping without marker, a string whose only marker
    is a snake_case one) raises [HighchartsValueError] and leaves the
    instance as it was. *)
Theorem alternate_grid_color_rejects_the_unrecognized (v : value) self :
  truthy v = true → resolvable_color v = false →
  Numeric.alternate_grid_color_set v self = (self, Raise HighchartsValueError).
Proof.
  intros Htruthy Hnone. unfold resolvable_color in Hnone.
  repeat (apply orb_false_iff in Hnone as [Hnone ?]).
  unfold Numeric.alternate_grid_color_set. rewrite Htruthy. cbn [negb].
  repeat match goal with
         | Hguard : _ = false |- _ => rewrite Hguard; clear Hguard
         end.
  reflexivity.
Qed.

(** The pattern branch of the same setter mirrors the gradient branch:
    on a value with the ['patternOptions'] marker, and no gradient marker
    before it, that [Pattern.from_json] fails to parse, a string whose
    parse failed with a [ValueError] is stored as it is, and a mapping is
    never stored: its failure, or the one of [Pattern.from_dict], is
    raised with nothing assigned. *)
Theorem pattern_fallback_only_for_strings (v : value) (e : exc) self :
  dict_or_str_has "linearGradient" v = false →
  is_dict v && dict_or_str_has "linear_gradient" v = false →
  dict_or_str_has "patternOptions" v = true →
  Pattern_from_json v = Raise e →
  match v with
  | VStr s =>
      is_ValueError e = true →
      Numeric.alternate_grid_color_set v self
      = (<["_alternate_grid_color" := VStr s]> self, Ok tt)
  | _ =>
      (is_ValueError e = false →
       Numeric.alternate_grid_color_set v self = (self, Raise e))
      ∧ (is_ValueError e = true →
         ∀ e', Pattern_from_dict v = Raise e' →
               Numeric.alternate_grid_color_set v self = (self, Raise e'))
  end.
Proof.
  intros Hgradient Hsnake Hmarker Hjson.
  assert (Htruthy : truthy v = true)
    by (eapply dict_or_str_has_truthy; [|eassumption]; discriminate).
  destruct (dict_or_str_has_kind _ _ Hmarker) as [Hkind|Hkind];
    destruct v as [| | | |s| |entries|]; try discriminate Hkind.
  - intros Hvalue. unfold Numeric.alternate_grid_color_set.
    rewrite Htruthy, Hgradient, Hmarker, Hjson.
    cbn [negb isinstance_of orb is_dict andb try_except_ValueError].
    rewrite Hvalue. unfold validators_string. rewrite Htruthy. reflexivity.
  - split.
    + intros Hvalue. unfold Numeric.alternate_grid_color_set.
      rewrite Htruthy, Hgradient, Hsnake, Hmarker, Hjson.
      cbn [negb isinstance_of orb try_except_ValueError].
      rewrite Hvalue. reflexivity.
    + intros Hvalue e' Hdict. unfold Numeric.alternate_grid_color_set.
      rewrite Htruthy, Hgradient, Hsnake, Hmarker, Hjson.
      cbn [negb isinstance_of orb is_dict try_except_ValueError].
      rewrite Hvalue, Hdict. reflexivity.
Qed.

(** ** Setters that begin with [if not value] *)

(** Every falsy value, not only [None], clears the attribute: [0],
    [False], the empty string, the empty list and the empty mapping are
    all stored as null by these setters, and none of them is validated
    or raises. *)
Theorem falsy_input_clears_the_attribute
    (attr : string) (setter : value → M unit) (v : value) self :
  (attr, setter) ∈ falsy_clearing_setters → truthy v = false →
  setter v self = (<["_" +:+ attr := VNone]> self, Ok tt).
Proof.
  intros Hin Hfalsy. unfold falsy_clearing_setters in Hin.
  repeat (apply elem_of_cons in Hin as [[= -> ->]|Hin];
          [unfold Numeric.alternate_grid_color_set, Numeric.categories_set,
             Bar.colors_set, BoxPlot.box_dash_style_set,
             BoxPlot.median_dash_style_set, BoxPlot.stem_dash_style_set,
             BoxPlot.whisker_dash_style_set, BoxPlot.dash_style_setter;
           rewrite Hfalsy; reflexivity|]).
  apply elem_of_nil in Hin. destruct Hin.
Qed.

(** ** The categories of the numeric axis *)





(** ** The whisker length of the box plot *)

(** [BoxPlotOptions.whisker_length] keeps a string with a percent sign
    as a string, and hands every other string to the numeric validation
    with a minimum of zero: the [ValueError] the setter raises itself for
    a string without ['%'] is caught by its own handler. *)
Theorem whisker_length_keeps_percent_strings (s : string) self :
  s ≠ "" →
  BoxPlot.whisker_length_set (VStr s) self =
  if str_contains "%" s
  then (<["_whisker_length" := VStr s]> self, Ok tt)
  else numeric_setter "_whisker_length" true (VStr s) self.
Proof.
  intros Hs. unfold BoxPlot.whisker_length_set, validators_string.
  rewrite nonempty_string_truthy by assumption.
  cbn [is_None negb is_str mbind result_bind dict_or_str_has].
  destruct (str_contains "%" s); reflexivity.
Qed.

End Further_setters.

Section Further_construction.
Context `{Collaborators}.

(** ** Errors of the first assignments of a constructor *)

(** The assignments of an [__init__] stop at the first setter that
    raises: when the setters before it never raise, the error of the
    constructor is that setter's. *)
Lemma assign_from_kwargs_raises (e : exc) (n : string) (s : value → M unit) :
  ∀ (setters : list (string * (value → M unit))) (i : nat) (kwargs : dict) self,
    setters !! i = Some (n, s) →
    Forall (λ entry, ∀ v st, ∃ st', entry.2 v st = (st', Ok tt))
           (take i setters) →
    n ∉ (take i setters).*1 →
    (∀ st, s (default VNone (dict_get n kwargs)) st = (st, Raise e)) →
    (assign_from_kwargs setters kwargs self).2 = Raise e.
Proof.
  induction setters as [|[n0 s0] setters IH]; intros i kwargs self Hat Hpass Hnew Hs;
    [discriminate|].
  cbn [assign_from_kwargs]. rewrite bind_run. cbn [dict_pop fst snd].
  destruct i as [|i].
  - injection Hat as -> ->. rewrite Hs. reflexivity.
  - cbn [take fmap list_fmap fst] in Hpass, Hnew.
    apply Forall_cons in Hpass as [Hhead Hpass]. cbn [snd] in Hhead.
    apply not_elem_of_cons in Hnew as [Hne Hnew].
    destruct (Hhead (default VNone (dict_get n0 kwargs)) self) as [st' ->].
    apply (IH i); try assumption.
    intros st. rewrite dict_get_remove.
    destruct (String.eqb n0 n) eqn:Heq; [|apply Hs].
    apply String.eqb_eq in Heq. congruence.
Qed.

Lemma bool_setter_passes p v st : ∃ st', bool_setter p v st = (st', Ok tt).
Proof. rewrite bool_setter_run. eauto. Qed.

Lemma numeric_axis_constructor_rejects_plain_color (kwargs : dict) (s : string) :
  dict_get "alternate_grid_color" kwargs = Some (VStr s) →
  s ≠ "" →
  str_contains "linearGradient" s = false →
  str_contains "patternOptions" s = false →
  construct Numeric.NumericAxis_init kwargs = Raise HighchartsValueError.
Proof.
  intros Hget Hs Hgradient Hpattern.
  unfold construct, Numeric.NumericAxis_init.
  rewrite bind_run, init_private_run. rewrite bind_run.
  match goal with
  | |- context [assign_from_kwargs ?setters kwargs ?fresh] =>
      assert (Hraises : (assign_from_kwargs setters kwargs fresh).2
                        = Raise HighchartsValueError);
      [apply (assign_from_kwargs_raises HighchartsValueError
                "alternate_grid_color" Numeric.alternate_grid_color_set
                setters 2 kwargs fresh eq_refl)
      |destruct (assign_from_kwargs setters kwargs fresh) as [s1 [rest|e]];
       [discriminate Hraises|injection Hraises as ->; reflexivity]]
  end.
  - repeat (apply Forall_cons; split; [intros v st; apply bool_setter_passes|]).
    apply Forall_nil_2.
  - intros Hin. repeat (apply elem_of_cons in Hin as [?|Hin]; [discriminate|]).
    apply elem_of_nil in Hin. exact Hin.
  - intros st. rewrite Hget. cbn [default from_option id].
    unfold Numeric.alternate_grid_color_set.
    rewrite nonempty_string_truthy by assumption.
    cbn [negb isinstance_of orb is_dict andb dict_or_str_has].
    rewrite Hgradient, Hpattern. reflexivity.
Qed.

(** A wire mapping whose ['alternateGridColor'] is a plain color string
    cannot be read back: whatever else the mapping holds,
    [NumericAxis.from_dict] raises [HighchartsValueError]; the two
    assignments before the one of the color are of boolean attributes and
    never raise. *)
Theorem numeric_axis_from_dict_rejects_a_plain_color
    (as_dict : dict) (s : string) :
  dict_get "alternateGridColor" as_dict = Some (VStr s) →
  s ≠ "" →
  str_contains "linearGradient" s = false →
  str_contains "patternOptions" s = false →
  Numeric.NumericAxis_from_dict as_dict = Raise HighchartsValueError.
Proof.
  intros Hget Hs Hgradient Hpattern. unfold Numeric.NumericAxis_from_dict.
  apply (numeric_axis_constructor_rejects_plain_color _ s); try assumption.
  destruct NumericAxis_from_dict_table_NoDup as [Hattrs Hkeys].
  unfold pop_recognized.
  rewrite (pop_recognized_into_entry "alternate_grid_color" "alternateGridColor")
    by (assumption || by_evaluation).
  rewrite Hget. reflexivity.
Qed.

(** The box plot stops at its first assignment for any keyword
    arguments, and any wire mapping, that hold a dash style of the box
    that is not supported: the constructor and [from_dict] raise the
    setter's [HighchartsValueError], not the [TypeError] of
    [super(self)]. *)
Theorem boxplot_raises_the_dash_style_error_first
    (kwargs as_dict : dict) (s : string) :
  s ≠ "" → s ∉ SUPPORTED_DASH_STYLE_VALUES →
  (dict_get "box_dash_style" kwargs = Some (VStr s) →
   construct BoxPlot.BoxPlotOptions_init kwargs = Raise HighchartsValueError)
  ∧ (dict_get "boxDashStyle" as_dict = Some (VStr s) →
     from_dict BoxPlot.BoxPlotOptions_get_kwargs_from_dict
               BoxPlot.BoxPlotOptions_init as_dict
     = Raise HighchartsValueError).
Proof.
  intros Hs Hnot.
  assert (Hconstruct : ∀ kw, dict_get "box_dash_style" kw = Some (VStr s) →
            construct BoxPlot.BoxPlotOptions_init kw = Raise HighchartsValueError).
  { intros kw Hget. unfold BoxPlot.BoxPlotOptions_init.
    rewrite construct_then_super_of_instance.
    unfold BoxPlot.BoxPlotOptions_assign. rewrite bind_run, init_private_run.
    unfold BoxPlot.BoxPlotOptions_setters. cbn [assign_from_kwargs].
    rewrite bind_run. cbn [dict_pop fst snd]. rewrite Hget.
    cbn [default from_option id].
    unfold BoxPlot.box_dash_style_set at 1.
    rewrite dash_style_setter_run by assumption.
    rewrite bool_decide_eq_false_2 by assumption. reflexivity. }
  split; [apply Hconstruct|].
  intros Hget. unfold from_dict. apply Hconstruct.
  unfold BoxPlot.BoxPlotOptions_get_kwargs_from_dict, pop_recognized.
  rewrite (pop_recognized_into_entry "box_dash_style" "boxDashStyle")
    by by_evaluation.
  rewrite Hget. reflexivity.
Qed.

(** ** Serializers that ask [super(self)] *)

Lemma serializer_super_of_instance_run
    (table : list (string * string)) (k : dict → dict → M dict) self :
  (read_attributes table ≫= λ untrimmed, super_of_instance ≫= k untrimmed) self
  = (self, Raise (serializer_error table self)).
Proof.
  rewrite bind_run, read_attributes_run. unfold serializer_error.
  destruct (forallb _ _); reflexivity.
Qed.

(** No [_to_untrimmed_dict] of [bar.py] or [boxplot.py] returns a
    mapping, not even that of the classes whose [__init__] uses
    [super()] correctly: each reads its own literal, which fails with
    [AttributeError] at the first attribute that was never assigned, and
    then raises [TypeError] at [super(self)].  None changes the
    instance. *)
Theorem bar_family_serializers_always_raise self :
  Bar.BaseBarOptions_to_untrimmed_dict self
  = (self, Raise (serializer_error Bar.BaseBarOptions_untrimmed_table self))
  ∧ Bar.BarOptions_to_untrimmed_dict self
    = (self, Raise (serializer_error Bar.BarOptions_untrimmed_table self))
  ∧ Bar.WaterfallOptions_to_untrimmed_dict self
    = (self, Raise (serializer_error Bar.WaterfallOptions_untrimmed_table self))
  ∧ Bar.WindBarbOptions_to_untrimmed_dict self
    = (self, Raise (serializer_error Bar.WindBarbOptions_untrimmed_table self))
  ∧ Bar.XRangeOptions_to_untrimmed_dict self
    = (self, Raise (serializer_error Bar.XRangeOptions_untrimmed_table self))
  ∧ BoxPlot.BoxPlotOptions_to_untrimmed_dict self
    = (self, Raise (serializer_error BoxPlot.BoxPlotOptions_untrimmed_table self)).
Proof. split_and!; apply serializer_super_of_instance_run. Qed.

End Further_construction.

(** ** Concrete runs, continued *)

Lemma construct_run (init : dict → M unit) (kwargs : dict) :
  (init kwargs ∅).2 = Ok tt → construct init kwargs = Ok (init kwargs ∅).1.
Proof.
  unfold construct. destruct (init kwargs ∅) as [self [[]|e]];
    [reflexivity|discriminate].
Qed.

(** The setter of the box's dash style, among all the setters. *)
Lemma box_dash_style_setter_is_atomic :
  atomic_setter ("_" +:+ "box_dash_style") (@BoxPlot.box_dash_style_set strict).
Proof.
  apply (@every_setter_is_atomic strict "box_dash_style").
  unfold all_setters, Numeric.NumericAxis_setters, Bar.BaseBarOptions_setters,
    Bar.BarOptions_setters, BoxPlot.BoxPlotOptions_setters.
  cbn [app]. in_list.
Defined.

(** The axis built with [align_ticks = False] holds [False], and its
    untrimmed mapping hands [False] back to the constructor. *)
Lemma a_numeric_axis_holds_False :
  a_numeric_axis !! ("_" +:+ "align_ticks")
  = (Numeric.align_ticks_set
       (default VNone (dict_get "align_ticks" [("align_ticks", VBool false)]))
       ∅).1 !! ("_" +:+ "align_ticks").
Proof.
  apply (@numeric_axis_holds_what_its_setters_stored strict
           [("align_ticks", VBool false)] a_numeric_axis
           "align_ticks" Numeric.align_ticks_set).
  - unfold a_numeric_axis. apply construct_run. vm_compute. reflexivity.
  - apply list_elem_of_here.
Defined.

Lemma a_numeric_axis_reads_False_back :
  dict_get "align_ticks"
    (pop_recognized Numeric.NumericAxis_from_dict_table
                    a_numeric_axis_untrimmed).1
  = a_numeric_axis !! ("_" +:+ "align_ticks").
Proof.
  apply (@numeric_axis_matching_key_round_trips strict a_numeric_axis
           a_numeric_axis_untrimmed "alignTicks" "align_ticks").
  - vm_compute. reflexivity.
  - unfold Numeric.NumericAxis_to_dict_table. in_list.
  - unfold Numeric.NumericAxis_from_dict_table. in_list.
Defined.

(** The same axis with a plot band: the wire form gives the
    constructor no plot band. *)
Lemma a_numeric_axis_loses_its_plot_band :
  dict_get "plot_bands"
    (pop_recognized Numeric.NumericAxis_from_dict_table a_numeric_axis_wire).1
  = Some VNone
  ∧ dict_get "class_name"
      (pop_recognized Numeric.NumericAxis_from_dict_table a_numeric_axis_wire).1
    = Some VNone.
Proof.
  apply (numeric_axis_round_trip_loses_plot_bands
           (<["_plot_bands" := one_plot_band]> a_numeric_axis)).
  vm_compute. reflexivity.
Defined.

(** A Venn node built with [crisp = True] holds [True], and a null
    [relative_x_value]. *)
Lemma a_venn_holds_True :
  a_venn !! ("_" +:+ "crisp")
  = (Venn.crisp_set
       (default VNone (dict_get "crisp" [("crisp", VBool true)])) ∅).1
      !! ("_" +:+ "crisp")
  ∧ a_venn !! "_relative_x_value" = Some VNone.
Proof.
  destruct (@venn_holds_what_its_setters_stored strict
              [("crisp", VBool true)] a_venn "crisp" Venn.crisp_set)
    as [Hcrisp Hrelative].
  - unfold a_venn. apply construct_run. vm_compute. reflexivity.
  - unfold Venn.VennOptions_setters. in_list.
  - split; [exact Hcrisp|apply Hrelative; reflexivity].
Defined.

(** A mapping without marker on the numeric axis. *)
Lemma unmarked_mapping_is_rejected :
  @Numeric.alternate_grid_color_set strict (VDict [("color", VStr "red")]) ∅
  = (∅, Raise HighchartsValueError).
Proof.
  apply (@alternate_grid_color_rejects_the_unrecognized strict);
    reflexivity.
Defined.

(** A string and a mapping that carry the pattern marker and do not
    parse. *)
Lemma malformed_pattern_string_and_mapping :
  @Numeric.alternate_grid_color_set strict
     (VStr "patternOptions: malformed") ∅
  = (<["_alternate_grid_color" := VStr "patternOptions: malformed"]> ∅, Ok tt)
  ∧ @Numeric.alternate_grid_color_set strict
       (VDict [("patternOptions", VStr "malformed")]) ∅
    = (∅, Raise HighchartsValueError).
Proof.
  split.
  - exact (@pattern_fallback_only_for_strings strict
             (VStr "patternOptions: malformed") ValueError ∅
             eq_refl eq_refl eq_refl eq_refl eq_refl).
  - exact (proj2 (@pattern_fallback_only_for_strings strict
                    (VDict [("patternOptions", VStr "malformed")]) ValueError ∅
                    eq_refl eq_refl eq_refl eq_refl)
                 eq_refl HighchartsValueError eq_refl).
Defined.

(** [0] given for the colors of a bar clears them. *)
Lemma zero_clears_the_colors :
  @Bar.colors_set strict (VInt 0) {["_colors" := VList [VStr "red"]]}
  = (<["_" +:+ "colors" := VNone]> {["_colors" := VList [VStr "red"]]}, Ok tt).
Proof.
  apply (@falsy_input_clears_the_attribute strict "colors"
           (@Bar.colors_set strict) (VInt 0)).
  - unfold falsy_clearing_setters. in_list.
  - reflexivity.
Defined.

(** ["50%"] is kept as the whisker length. *)
Lemma half_whisker_length_is_kept :
  @BoxPlot.whisker_length_set strict (VStr "50%") ∅
  = (if str_contains "%" "50%"
     then (<["_whisker_length" := VStr "50%"]> ∅, Ok tt)
     else @numeric_setter strict "_whisker_length" true (VStr "50%") ∅).
Proof.
  apply (@whisker_length_keeps_percent_strings strict "50%"). discriminate.
Defined.

(** A wire mapping with a plain color for the alternate grid. *)
Lemma red_alternate_grid_is_not_read_back :
  @Numeric.NumericAxis_from_dict strict
     [("alignTicks", VBool true); ("alternateGridColor", VStr "#ff0000")]
  = Raise HighchartsValueError.
Proof.
  apply (@numeric_axis_from_dict_rejects_a_plain_color strict _ "#ff0000");
    [reflexivity|discriminate|reflexivity|reflexivity].
Defined.

(** A box plot given ["NotARealStyle"] among other arguments. *)
Lemma boxplot_with_NotARealStyle_raises_first :
  construct (@BoxPlot.BoxPlotOptions_init strict)
            [("median_width", VInt 2); ("box_dash_style", VStr "NotARealStyle")]
  = Raise HighchartsValueError
  ∧ from_dict BoxPlot.BoxPlotOptions_get_kwargs_from_dict
              (@BoxPlot.BoxPlotOptions_init strict)
              [("medianWidth", VInt 2); ("boxDashStyle", VStr "NotARealStyle")]
    = Raise HighchartsValueError.
Proof.
  destruct (@boxplot_raises_the_dash_style_error_first strict
              [("median_width", VInt 2); ("box_dash_style", VStr "NotARealStyle")]
              [("medianWidth", VInt 2); ("boxDashStyle", VStr "NotARealStyle")]
              "NotARealStyle")
    as [Hkwargs Hwire].
  - discriminate.
  - intros Hin. repeat (apply elem_of_cons in Hin as [?|Hin]; [discriminate|]).
    apply elem_of_nil in Hin. exact Hin.
  - split; [apply Hkwargs|apply Hwire]; reflexivity.
Defined.


(** ["NotARealStyle"] is stored as the border dash style of a Venn
    node. *)
Lemma venn_stores_NotARealStyle :
  Venn.border_dash_style_set (VStr "NotARealStyle") ∅
  = (<["_border_dash_style" := VStr "NotARealStyle"]> ∅, Ok tt).
Proof.
  apply (venn_border_dash_style_is_a_plain_string "NotARealStyle").
  discriminate.
Defined.
